(** * kodo/platform/linux/window.cc: the XEmbed host window

    A shallow embedding of [X11Window::Impl], the X11 container window of the
    kodo plugin host, and the properties of its event handlers.

    The object's fields become the record [Impl].  Every call that leaves the
    object (Xlib, the run loop, the window controller, the close callback,
    the standard streams) is appended to a trace of [call]s, in program
    order.  What those calls answer is read from a [World].  A member
    function is a computation in the monad [M]: it reads and writes the
    [Impl], extends the trace, and either returns or stops the process
    ([exit], a failed [assert], a null dereference).

    Conventions of the model:
    - [xembedInfo] is a pointer the code tests for null, so it is an
      [option], and [xembedInfo->version] on a null pointer stops the
      process.  The controller and the [X11Window] behind [x11Window] are
      never tested by the code and are taken to be live.
    - [assert] is checked, as in a build without NDEBUG.
    - The callbacks handed to the outside (controller, close function,
      handlers) do not call back into the object while a member runs.
    - Client-side helpers of Xlib that send nothing ([XAllocSizeHints],
      [XFree], [XStringListToTextProperty], the [DefaultScreen] family of
      macros) are not recorded in the trace; the values they yield are.
    - The target is 64 bit and little-endian (x86-64 Linux): a pointer and
      a [long] take 8 bytes, an [int] 4.  A call is recorded with the
      arguments the callee receives, so an [int] handed to an
      [unsigned int] parameter appears converted ([to_unsigned]). *)

From stdpp Require Import base option list gmap strings.
From Stdlib Require Import ZArith Lia.

Local Open Scope Z_scope.

(** ** Xlib data *)

(** XIDs, atoms and pointers are machine integers; [None], a null pointer and
    the null XID are all [0]. *)
Abbreviation Window := Z.
Abbreviation Atom := Z.
Abbreviation GC := Z.
Abbreviation Display := Z.
Abbreviation Pointer := Z.
Abbreviation FileDescriptor := Z.
Abbreviation TimerID := Z.
Abbreviation TimerInterval := Z.

Definition None_ : Atom := 0.
Definition nullptr : Pointer := 0.
Definition Success : Z := 0.
Definition CurrentTime : Z := 0.
Definition NoEventMask : Z := 0.
Definition CopyFromParent : Z := 0.
Definition AllocNone : Z := 0.
Definition InputOutput : Z := 1.
Definition TrueColor : Z := 4.

(** Event masks, window attribute masks and size hint flags of X.h and
    Xutil.h. *)
Definition KeyPressMask : Z := Z.shiftl 1 0.
Definition ButtonPressMask : Z := Z.shiftl 1 2.
Definition ButtonReleaseMask : Z := Z.shiftl 1 3.
Definition ButtonMotionMask : Z := Z.shiftl 1 13.
Definition ExposureMask : Z := Z.shiftl 1 15.
Definition StructureNotifyMask : Z := Z.shiftl 1 17.
Definition SubstructureNotifyMask : Z := Z.shiftl 1 19.
Definition FocusChangeMask : Z := Z.shiftl 1 21.
Definition PropertyChangeMask : Z := Z.shiftl 1 22.
Definition CWBackPixel : Z := Z.shiftl 1 1.
Definition CWBorderPixel : Z := Z.shiftl 1 3.
Definition CWColormap : Z := Z.shiftl 1 13.
Definition PMinSize : Z := Z.shiftl 1 4.
Definition PMaxSize : Z := Z.shiftl 1 5.

(** XEMBED messages *)
Definition XEMBED_EMBEDDED_NOTIFY : Z := 0.
Definition XEMBED_WINDOW_ACTIVATE : Z := 1.
Definition XEMBED_WINDOW_DEACTIVATE : Z := 2.
Definition XEMBED_REQUEST_FOCUS : Z := 3.
Definition XEMBED_FOCUS_IN : Z := 4.
Definition XEMBED_FOCUS_OUT : Z := 5.
Definition XEMBED_MAPPED : Z := Z.shiftl 1 0.

Record Size := mkSize { width : Z; height : Z }.

Definition Size_eqb (a b : Size) : bool :=
  (width a =? width b) && (height a =? height b).

Record XEmbedInfo := mkXEmbedInfo { version : Z; flags : Z }.

(** The conversion of an [int] argument to an [unsigned int] parameter. *)
Definition to_unsigned (x : Z) : Z := x mod 2 ^ 32.

(** The buffer [XGetWindowProperty] hands back for a property of format 32:
    an array of [long], one for each 32 bit item of the property, given
    here from its first element on.  A buffer without a first element (a
    property of no item) would make the code read past it; the model does
    not describe that. *)
Record XPropertyData := mkXPropertyData {
  first_long : Z;
  more_longs : list Z
}.

(** What the code sees when it casts that buffer to [XEmbedInfo*]: the two
    [uint32_t] fields of the structure lie in the first [long], [version] in
    its lower and [flags] in its upper half.  The second [long], where Xlib
    puts the second item of the property, is beyond the structure. *)
Definition XEmbedInfo_view (data : XPropertyData) : XEmbedInfo :=
  {| version := Z.land (first_long data) (Z.ones 32);
     flags := Z.land (Z.shiftr (first_long data) 32) (Z.ones 32) |}.

Record XVisualInfo := mkXVisualInfo { visual : Z; depth : Z }.

Record XSetWindowAttributes := mkXSetWindowAttributes {
  background_pixel : Z;
  border_pixel : Z;
  colormap : Z;
  override_redirect : bool;
  event_mask : Z
}.

Record XSizeHints := mkXSizeHints {
  hint_flags : Z;
  min_width : Z; min_height : Z;
  max_width : Z; max_height : Z
}.

(** The [XEvent] union, one constructor per event type the handlers switch
    on.  Each constructor carries the members the code reads.  The member
    [xany.window] is the first window of every event structure: it is
    [event] for the structure notifications and [parent] for
    [XCreateWindowEvent]. *)
Inductive XEvent :=
| Expose (window : Window) (count : Z)
| ConfigureNotify (event window : Window) (width height : Z)
| MapNotify (event window : Window)
| UnmapNotify (event window : Window)
| DestroyNotify (event window : Window)
| ClientMessage (window : Window) (message_type : Atom) (format : Z)
                (l0 l1 l2 l3 l4 : Z)
| FocusIn (window : Window)
| FocusOut (window : Window)
| ResizeRequest (window : Window) (width height : Z)
| PropertyNotify (window : Window) (atom : Atom)
| CreateNotify (parent window : Window)
| OtherEvent (type : Z) (window : Window).

(** Which member function the run loop calls back for a window. *)
Inductive WindowHandler := HandlePlugEvent | HandleMainWindowEvent.

(** ** Calls that leave the object *)

Inductive call :=
| XInternAtom (dpy : Display) (name : string) (only_if_exists : bool)
| XMatchVisualInfo (dpy : Display) (screen depth class : Z)
| XCreateColormap (dpy : Display) (w : Window) (visual alloc : Z)
| XCreateWindow (dpy : Display) (parent : Window)
                (x y width height border_width depth class visual : Z)
                (valuemask : Z) (attributes : XSetWindowAttributes)
| XFlush (dpy : Display)
| XSelectInput (dpy : Display) (w : Window) (mask : Z)
| XSetWMNormalHints (dpy : Display) (w : Window) (hints : XSizeHints)
| XStoreName (dpy : Display) (w : Window) (name : string)
| XSetWMIconName (dpy : Display) (w : Window) (name : string)
| XSetWMProtocols (dpy : Display) (w : Window) (protocols : list Atom)
| XCreateGC (dpy : Display) (w : Window)
| XSetForeground (dpy : Display) (gc : GC) (pixel : Z)
| XSetBackground (dpy : Display) (gc : GC) (pixel : Z)
| XFreeGC (dpy : Display) (gc : GC)
| XMapWindow (dpy : Display) (w : Window)
| XUnmapWindow (dpy : Display) (w : Window)
| XReparentWindow (dpy : Display) (w parent : Window) (x y : Z)
| XResizeWindow (dpy : Display) (w : Window) (width height : Z)
| XDestroyWindow (dpy : Display) (w : Window)
| XClearWindow (dpy : Display) (w : Window)
| XFillRectangle (dpy : Display) (w : Window) (gc : GC) (x y width height : Z)
| XGetGeometry (dpy : Display) (w : Window)
| XGetAtomName (dpy : Display) (atom : Atom)
| XGetWindowProperty (dpy : Display) (w : Window) (property : Atom)
                     (offset length : Z) (delete : bool) (req_type : Atom)
| XSendEvent (dpy : Display) (w : Window) (propagate : bool) (mask : Z)
             (ev : XEvent)
| XSync (dpy : Display) (discard : bool)
| RunLoop_registerWindow (w : Window) (handler : WindowHandler)
| RunLoop_registerFileDescriptor (fd : FileDescriptor) (handler : Pointer)
| RunLoop_unregisterFileDescriptor (fd : FileDescriptor)
| RunLoop_registerTimer (milliseconds : TimerInterval) (handler : Pointer)
| RunLoop_unregisterTimer (id : TimerID)
| Controller_constrainSize (size : Size)
| Controller_onResize (size : Size)
| Controller_onShow
| Controller_onClose
| WindowClosedFunc
| Cerr (msg : string)
| Cout (msg : string).

(** What the object does not determine during one member call: the answers
    of the outside, and the order in which a [std::unordered_map] is
    iterated. *)
Record World := mkWorld {
  reply_XInternAtom : string → bool → Atom;
  reply_DefaultScreen : Z;
  reply_DisplayWidth : Z;
  reply_DisplayHeight : Z;
  reply_BlackPixel : Z;
  reply_WhitePixel : Z;
  reply_RootWindow : Window;
  reply_XMatchVisualInfo : option XVisualInfo;
  reply_XCreateColormap : Z;
  reply_XCreateWindow : Window → Window;
  reply_XCreateGC : GC;
  reply_XGetWindowProperty : Window → Atom → Z * option XPropertyData;
  reply_XGetAtomName : Atom → string;
  reply_XGetGeometry : Window → Size;
  reply_constrainSize : Size → Size;
  reply_registerTimer : TimerID;
  unordered_map_order : gmap Z Z → list (Z * Z)
}.

(** An iteration visits every entry of the map once. *)
Definition iterates_entries (W : World) : Prop :=
  ∀ m : gmap Z Z, unordered_map_order W m ≡ₚ map_to_list m.

(** ** The object *)

Inductive tresult :=
| kResultTrue | kResultFalse | kInvalidArgument | kNotImplemented
| kNoInterface.

Record Impl := mkImpl {
  controller : Pointer;
  windowClosedFunc : bool;
  xDisplay : Display;
  xembedInfo : option XEmbedInfo;
  xWindow : Window;
  plugParentWindow : Window;
  plugWindow : Window;
  xGraphicContext : GC;
  xEmbedInfoAtom : Atom;
  xEmbedAtom : Atom;
  isMapped : bool;
  mCurrentSize : Size;
  eventHandlers : gmap Z Z;
  timerHandlers : gmap Z Z
}.

(** The member initialisers of the class. *)
Definition Impl_new : Impl :=
  {| controller := nullptr; windowClosedFunc := false; xDisplay := nullptr;
     xembedInfo := None; xWindow := 0; plugParentWindow := 0;
     plugWindow := 0; xGraphicContext := 0; xEmbedInfoAtom := None_;
     xEmbedAtom := None_; isMapped := false; mCurrentSize := mkSize 0 0;
     eventHandlers := ∅; timerHandlers := ∅ |}.

Definition set_controller (v : Pointer) (s : Impl) : Impl :=
  mkImpl v (windowClosedFunc s) (xDisplay s) (xembedInfo s) (xWindow s)
    (plugParentWindow s) (plugWindow s) (xGraphicContext s)
    (xEmbedInfoAtom s) (xEmbedAtom s) (isMapped s) (mCurrentSize s)
    (eventHandlers s) (timerHandlers s).
Definition set_windowClosedFunc (v : bool) (s : Impl) : Impl :=
  mkImpl (controller s) v (xDisplay s) (xembedInfo s) (xWindow s)
    (plugParentWindow s) (plugWindow s) (xGraphicContext s)
    (xEmbedInfoAtom s) (xEmbedAtom s) (isMapped s) (mCurrentSize s)
    (eventHandlers s) (timerHandlers s).
Definition set_xDisplay (v : Display) (s : Impl) : Impl :=
  mkImpl (controller s) (windowClosedFunc s) v (xembedInfo s) (xWindow s)
    (plugParentWindow s) (plugWindow s) (xGraphicContext s)
    (xEmbedInfoAtom s) (xEmbedAtom s) (isMapped s) (mCurrentSize s)
    (eventHandlers s) (timerHandlers s).
Definition set_xembedInfo (v : option XEmbedInfo) (s : Impl) : Impl :=
  mkImpl (controller s) (windowClosedFunc s) (xDisplay s) v (xWindow s)
    (plugParentWindow s) (plugWindow s) (xGraphicContext s)
    (xEmbedInfoAtom s) (xEmbedAtom s) (isMapped s) (mCurrentSize s)
    (eventHandlers s) (timerHandlers s).
Definition set_xWindow (v : Window) (s : Impl) : Impl :=
  mkImpl (controller s) (windowClosedFunc s) (xDisplay s) (xembedInfo s) v
    (plugParentWindow s) (plugWindow s) (xGraphicContext s)
    (xEmbedInfoAtom s) (xEmbedAtom s) (isMapped s) (mCurrentSize s)
    (eventHandlers s) (timerHandlers s).
Definition set_plugParentWindow (v : Window) (s : Impl) : Impl :=
  mkImpl (controller s) (windowClosedFunc s) (xDisplay s) (xembedInfo s)
    (xWindow s) v (plugWindow s) (xGraphicContext s)
    (xEmbedInfoAtom s) (xEmbedAtom s) (isMapped s) (mCurrentSize s)
    (eventHandlers s) (timerHandlers s).
Definition set_plugWindow (v : Window) (s : Impl) : Impl :=
  mkImpl (controller s) (windowClosedFunc s) (xDisplay s) (xembedInfo s)
    (xWindow s) (plugParentWindow s) v (xGraphicContext s)
    (xEmbedInfoAtom s) (xEmbedAtom s) (isMapped s) (mCurrentSize s)
    (eventHandlers s) (timerHandlers s).
Definition set_xGraphicContext (v : GC) (s : Impl) : Impl :=
  mkImpl (controller s) (windowClosedFunc s) (xDisplay s) (xembedInfo s)
    (xWindow s) (plugParentWindow s) (plugWindow s) v
    (xEmbedInfoAtom s) (xEmbedAtom s) (isMapped s) (mCurrentSize s)
    (eventHandlers s) (timerHandlers s).
Definition set_xEmbedInfoAtom (v : Atom) (s : Impl) : Impl :=
  mkImpl (controller s) (windowClosedFunc s) (xDisplay s) (xembedInfo s)
    (xWindow s) (plugParentWindow s) (plugWindow s) (xGraphicContext s)
    v (xEmbedAtom s) (isMapped s) (mCurrentSize s)
    (eventHandlers s) (timerHandlers s).
Definition set_xEmbedAtom (v : Atom) (s : Impl) : Impl :=
  mkImpl (controller s) (windowClosedFunc s) (xDisplay s) (xembedInfo s)
    (xWindow s) (plugParentWindow s) (plugWindow s) (xGraphicContext s)
    (xEmbedInfoAtom s) v (isMapped s) (mCurrentSize s)
    (eventHandlers s) (timerHandlers s).
Definition set_isMapped (v : bool) (s : Impl) : Impl :=
  mkImpl (controller s) (windowClosedFunc s) (xDisplay s) (xembedInfo s)
    (xWindow s) (plugParentWindow s) (plugWindow s) (xGraphicContext s)
    (xEmbedInfoAtom s) (xEmbedAtom s) v (mCurrentSize s)
    (eventHandlers s) (timerHandlers s).
Definition set_mCurrentSize (v : Size) (s : Impl) : Impl :=
  mkImpl (controller s) (windowClosedFunc s) (xDisplay s) (xembedInfo s)
    (xWindow s) (plugParentWindow s) (plugWindow s) (xGraphicContext s)
    (xEmbedInfoAtom s) (xEmbedAtom s) (isMapped s) v
    (eventHandlers s) (timerHandlers s).
Definition set_eventHandlers (v : gmap Z Z) (s : Impl) : Impl :=
  mkImpl (controller s) (windowClosedFunc s) (xDisplay s) (xembedInfo s)
    (xWindow s) (plugParentWindow s) (plugWindow s) (xGraphicContext s)
    (xEmbedInfoAtom s) (xEmbedAtom s) (isMapped s) (mCurrentSize s)
    v (timerHandlers s).
Definition set_timerHandlers (v : gmap Z Z) (s : Impl) : Impl :=
  mkImpl (controller s) (windowClosedFunc s) (xDisplay s) (xembedInfo s)
    (xWindow s) (plugParentWindow s) (plugWindow s) (xGraphicContext s)
    (xEmbedInfoAtom s) (xEmbedAtom s) (isMapped s) (mCurrentSize s)
    (eventHandlers s) v.

(** ** The monad of member functions *)

(** Why the process stopped inside a member function. *)
Inductive stop :=
| Exited (status : Z)
| AssertFailed
| NullDereference.

Inductive result (A : Type) :=
| Returned (a : A) (s : Impl)
| Stopped (why : stop).
Arguments Returned {A} a s.
Arguments Stopped {A} why.

Definition M (A : Type) : Type := Impl → list call * result A.

Definition M_ret {A} (a : A) : M A := λ s, ([], Returned a s).

Definition M_bind {A B} (k : A → M B) (m : M A) : M B := λ s,
  match m s with
  | (tr, Returned a s') =>
      match k a s' with (tr', r) => (tr ++ tr', r) end
  | (tr, Stopped why) => (tr, Stopped why)
  end.

#[global] Instance M_MRet : MRet M := @M_ret.
#[global] Instance M_MBind : MBind M := @M_bind.

Definition emit (c : call) : M unit := λ s, ([c], Returned () s).
Definition gets {A} (f : Impl → A) : M A := λ s, ([], Returned (f s) s).
Definition modify (f : Impl → Impl) : M unit := λ s, ([], Returned () (f s)).
Definition halt {A} (why : stop) : M A := λ _, ([], Stopped why).
Definition exit {A} (status : Z) : M A := halt (Exited status).
Definition when (b : bool) (m : M unit) : M unit := if b then m else mret ().

(** The trace and the outcome of a member call. *)
Definition trace {A} (m : M A) (s : Impl) : list call := fst (m s).
Definition outcome {A} (m : M A) (s : Impl) : result A := snd (m s).

(** ** Free functions *)

Definition send_xembed_message (dpy : Display) (w : Window)
    (messageType : Atom) (message detail data1 data2 : Z) : M unit :=
  emit (XSendEvent dpy w false NoEventMask
          (ClientMessage w messageType 32 CurrentTime message detail
             data1 data2));;
  emit (XSync dpy false).

(** [p->version] on the pointer [xembedInfo]: a null pointer stops the
    process. *)
Definition xembedInfo_version : M Z := λ s,
  match xembedInfo s with
  | Some info => ([], Returned (version info) s)
  | None => ([], Stopped NullDereference)
  end.

(** ** Member functions *)

Definition show : M unit :=
  dpy ← gets xDisplay; w ← gets xWindow; emit (XMapWindow dpy w).

Definition close : M unit :=
  dpy ← gets xDisplay; w ← gets xWindow; emit (XUnmapWindow dpy w).

Definition onClose : M unit :=
  dpy ← gets xDisplay;
  gc ← gets xGraphicContext;
  emit (XFreeGC dpy gc);;
  w ← gets xWindow;
  emit (XDestroyWindow dpy w);;
  modify (set_xDisplay nullptr);;
  modify (set_xWindow 0);;
  modify (set_isMapped false);;
  f ← gets windowClosedFunc;
  when f (emit WindowClosedFunc).

Definition resize (newSize : Size) (force : bool) : M unit :=
  cur ← gets mCurrentSize;
  if negb force && Size_eqb cur newSize then mret ()
  else
    dpy ← gets xDisplay;
    w ← gets xWindow;
    when (negb (w =? 0))
      (emit (XResizeWindow dpy w (to_unsigned (width newSize))
               (to_unsigned (height newSize))));;
    p ← gets plugParentWindow;
    when (negb (p =? 0))
      (emit (XResizeWindow dpy p (to_unsigned (width newSize))
               (to_unsigned (height newSize))));;
    modify (set_mCurrentSize newSize).

(** The world answers with the width and height of the geometry as the
    [int]s the code casts them to. *)
Definition getSize (W : World) : M Size :=
  dpy ← gets xDisplay;
  w ← gets xWindow;
  emit (XGetGeometry dpy w);;
  mret (reply_XGetGeometry W w).

Definition checkSize (W : World) : M unit :=
  sz ← getSize W;
  cur ← gets mCurrentSize;
  when (negb (Size_eqb sz cur)) (resize cur true).

(** The guarded send of the focus cases: [if (xembedInfo) send(...)]. *)
Definition forward_to_plug (message : Z) : M unit :=
  info ← gets xembedInfo;
  match info with
  | Some _ =>
      dpy ← gets xDisplay;
      pw ← gets plugWindow;
      a ← gets xEmbedAtom;
      pp ← gets plugParentWindow;
      v ← xembedInfo_version;
      send_xembed_message dpy pw a message 0 pp v
  | None => mret ()
  end.

Definition handleMainWindowEvent (W : World) (event : XEvent) : M bool :=
  match event with
  | Expose _ count =>
      when (count =? 0)
        (dpy ← gets xDisplay;
         w ← gets xWindow;
         emit (XClearWindow dpy w);;
         gc ← gets xGraphicContext;
         cur ← gets mCurrentSize;
         emit (XFillRectangle dpy w gc 0 0 (to_unsigned (width cur))
                 (to_unsigned (height cur))));;
      mret true
  | ConfigureNotify _ window width height =>
      w ← gets xWindow;
      if negb (window =? w) then mret false
      else
        let size := mkSize width height in
        cur ← gets mCurrentSize;
        when (negb (Size_eqb cur size))
          (emit (Controller_constrainSize size);;
           let constraintSize := reply_constrainSize W size in
           cur' ← gets mCurrentSize;
           when (negb (Size_eqb constraintSize cur'))
             (modify (set_mCurrentSize size);;
              emit (Controller_onResize size));;
           if negb (Size_eqb constraintSize size)
           then resize constraintSize true
           else
             p ← gets plugParentWindow;
             when (negb (p =? 0))
               (dpy ← gets xDisplay;
                emit (XResizeWindow dpy p (to_unsigned width)
                        (to_unsigned height))));;
        mret true
  | MapNotify ev _ =>
      w ← gets xWindow;
      mapped ← gets isMapped;
      if (ev =? w) && negb mapped then
        emit Controller_onShow;;
        modify (set_isMapped true);;
        mret true
      else mret false
  | UnmapNotify _ window =>
      w ← gets xWindow;
      if window =? w then
        emit Controller_onClose;; onClose;; mret true
      else mret false
  | DestroyNotify _ _ => mret false
  | ClientMessage window _ _ _ _ _ _ _ =>
      w ← gets xWindow;
      if window =? w then
        emit Controller_onClose;; onClose;; mret true
      else mret false
  | FocusIn _ => forward_to_plug XEMBED_WINDOW_ACTIVATE;; mret false
  | FocusOut _ => forward_to_plug XEMBED_WINDOW_DEACTIVATE;; mret false
  | ResizeRequest window width height =>
      w ← gets xWindow;
      if window =? w then
        let request := mkSize width height in
        cur ← gets mCurrentSize;
        when (negb (Size_eqb cur request))
          (emit (Controller_constrainSize request);;
           resize (reply_constrainSize W request) true);;
        mret true
      else mret false
  | PropertyNotify _ _ | CreateNotify _ _ | OtherEvent _ _ => mret false
  end.

(** [sizeof(xembedInfo)] is the size of a pointer, 8 on the target.  The
    pointer returned is the buffer of Xlib taken as an [XEmbedInfo]. *)
Definition getXEmbedInfo (W : World) : M (option XEmbedInfo) :=
  a ← gets xEmbedInfoAtom;
  when (a =? None_)
    (dpy ← gets xDisplay;
     emit (XInternAtom dpy "_XEMBED_INFO" true);;
     modify (set_xEmbedInfoAtom (reply_XInternAtom W "_XEMBED_INFO" true)));;
  dpy ← gets xDisplay;
  pw ← gets plugWindow;
  a' ← gets xEmbedInfoAtom;
  emit (XGetWindowProperty dpy pw a' 0 8 false a');;
  let (err, data) := reply_XGetWindowProperty W pw a' in
  if negb (err =? Success) then mret None
  else mret (XEmbedInfo_view <$> data).

(** [send_xembed_message (xDisplay, plugWindow, xEmbedAtom, message, 0,
    plugParentWindow, xembedInfo->version)], as the plug handler calls it. *)
Definition send_to_plug (message : Z) : M unit :=
  dpy ← gets xDisplay;
  pw ← gets plugWindow;
  a ← gets xEmbedAtom;
  pp ← gets plugParentWindow;
  v ← xembedInfo_version;
  send_xembed_message dpy pw a message 0 pp v.

Definition handlePlugEvent (W : World) (event : XEvent) : M bool :=
  match event with
  | ClientMessage _ message_type _ _ l1 _ _ _ =>
      dpy ← gets xDisplay;
      emit (XGetAtomName dpy message_type);;
      emit (Cout (reply_XGetAtomName W message_type));;
      a ← gets xEmbedAtom;
      when (message_type =? a)
        (if l1 =? XEMBED_REQUEST_FOCUS then send_to_plug XEMBED_FOCUS_IN
         else mret ());;
      mret false
  | PropertyNotify _ atom =>
      dpy ← gets xDisplay;
      emit (XGetAtomName dpy atom);;
      emit (Cout (reply_XGetAtomName W atom));;
      mret false
  | CreateNotify parent window =>
      pp ← gets plugParentWindow;
      if negb (parent =? pp) then mret true
      else
        modify (set_plugWindow window);;
        info ← getXEmbedInfo W;
        modify (set_xembedInfo info);;
        match info with
        | None =>
            emit (Cerr "XGetWindowProperty for _XEMBED_INFO failed");;
            exit (-1)
        | Some i =>
            if negb (Z.land (flags i) XEMBED_MAPPED =? 0) then
              emit (Cerr "Window already mapped error");;
              exit (-1)
            else
              dpy ← gets xDisplay;
              pw ← gets plugWindow;
              emit (RunLoop_registerWindow pw HandlePlugEvent);;
              a ← gets xEmbedAtom;
              when (a =? None_)
                (emit (XInternAtom dpy "_XEMBED" true);;
                 modify (set_xEmbedAtom (reply_XInternAtom W "_XEMBED" true)));;
              a' ← gets xEmbedAtom;
              (if a' =? None_ then halt AssertFailed else mret ());;
              send_to_plug XEMBED_EMBEDDED_NOTIFY;;
              emit (XMapWindow dpy pw);;
              cur ← gets mCurrentSize;
              emit (XResizeWindow dpy pw (to_unsigned (width cur))
                      (to_unsigned (height cur)));;
              send_to_plug XEMBED_WINDOW_ACTIVATE;;
              send_to_plug XEMBED_FOCUS_IN;;
              emit (XSync dpy false);;
              mret true
        end
  | _ => mret false
  end.

(** [std::unordered_map::emplace]: an existing key keeps its value. *)
Definition emplace (k v : Z) (m : gmap Z Z) : gmap Z Z :=
  match m !! k with
  | Some _ => m
  | None => <[k := v]> m
  end.

(** The loop of the two unregister functions: the first entry, in iteration
    order, whose handler is [handler]. *)
Fixpoint find_handler (handler : Pointer) (entries : list (Z * Z))
    : option (Z * Z) :=
  match entries with
  | [] => None
  | (k, h) :: rest =>
      if h =? handler then Some (k, h) else find_handler handler rest
  end.

Definition registerEventHandler (handler : Pointer) (fd : FileDescriptor)
    : M tresult :=
  hs ← gets eventHandlers;
  if (handler =? nullptr) || bool_decide (is_Some (hs !! fd))
  then mret kInvalidArgument
  else
    emit (RunLoop_registerFileDescriptor fd handler);;
    modify (λ s, set_eventHandlers (emplace fd handler (eventHandlers s)) s);;
    mret kResultTrue.

Definition unregisterEventHandler (W : World) (handler : Pointer)
    : M tresult :=
  if handler =? nullptr then mret kInvalidArgument
  else
    hs ← gets eventHandlers;
    match find_handler handler (unordered_map_order W hs) with
    | Some (fd, _) =>
        emit (RunLoop_unregisterFileDescriptor fd);;
        modify (λ s, set_eventHandlers (delete fd (eventHandlers s)) s);;
        mret kResultTrue
    | None => mret kResultFalse
    end.

Definition registerTimer (W : World) (handler : Pointer)
    (milliseconds : TimerInterval) : M tresult :=
  if (handler =? nullptr) || (milliseconds =? 0) then mret kInvalidArgument
  else
    emit (RunLoop_registerTimer milliseconds handler);;
    let id := reply_registerTimer W in
    modify (λ s, set_timerHandlers (emplace id handler (timerHandlers s)) s);;
    mret kResultTrue.

Definition unregisterTimer (W : World) (handler : Pointer) : M tresult :=
  if handler =? nullptr then mret kInvalidArgument
  else
    hs ← gets timerHandlers;
    match find_handler handler (unordered_map_order W hs) with
    | Some (id, _) =>
        emit (RunLoop_unregisterTimer id);;
        modify (λ s, set_timerHandlers (delete id (timerHandlers s)) s);;
        mret kResultTrue
    | None => mret kNotImplemented
    end.

Definition main_event_mask : Z :=
  Z.lor ExposureMask
    (Z.lor StructureNotifyMask (Z.lor SubstructureNotifyMask FocusChangeMask)).

Definition plug_parent_event_mask : Z :=
  Z.lor ExposureMask
    (Z.lor KeyPressMask
       (Z.lor ButtonPressMask (Z.lor ButtonReleaseMask ButtonMotionMask))).

Definition winAttrMask : Z := Z.lor CWBackPixel (Z.lor CWColormap CWBorderPixel).

(** The size hints [init] fills in; [XAllocSizeHints] hands out a zeroed
    structure. *)
Definition init_size_hints (size : Size) (resizeable : bool) : XSizeHints :=
  if negb resizeable then
    mkXSizeHints (Z.lor PMinSize PMaxSize)
      (width size) (height size) (width size) (height size)
  else mkXSizeHints PMinSize 80 80 0 0.

Definition init (W : World) (name : string) (size : Size) (resizeable : bool)
    (controller' : Pointer) (display : Display) (windowClosedFunc' : bool)
    : M bool :=
  modify (set_windowClosedFunc windowClosedFunc');;
  modify (set_controller controller');;
  modify (set_xDisplay display);;
  emit (XInternAtom display "_XEMBED_INFO" true);;
  modify (set_xEmbedInfoAtom (reply_XInternAtom W "_XEMBED_INFO" true));;
  a ← gets xEmbedInfoAtom;
  if a =? None_ then
    emit (Cerr "_XEMBED_INFO does not exist");;
    mret false
  else
    let screen_num := reply_DefaultScreen W in
    let displayWidth := reply_DisplayWidth W in
    let displayHeight := reply_DisplayHeight W in
    let border_width := 1 in
    emit (XMatchVisualInfo display screen_num 24 TrueColor);;
    match reply_XMatchVisualInfo W with
    | None => exit (-1)
    | Some vInfo =>
        emit (XCreateColormap display (reply_RootWindow W) (visual vInfo)
                AllocNone);;
        let winAttr :=
          mkXSetWindowAttributes (reply_WhitePixel W) (reply_BlackPixel W)
            (reply_XCreateColormap W) false 0 in
        emit (XCreateWindow display (reply_RootWindow W) 0 0
                (to_unsigned displayWidth) (to_unsigned displayHeight)
                border_width (depth vInfo) InputOutput
                (visual vInfo) winAttrMask winAttr);;
        modify (set_xWindow (reply_XCreateWindow W (reply_RootWindow W)));;
        emit (XFlush display);;
        resize size true;;
        w ← gets xWindow;
        emit (XSelectInput display w main_event_mask);;
        emit (XSetWMNormalHints display w (init_size_hints size resizeable));;
        emit (XStoreName display w name);;
        emit (XSetWMIconName display w name);;
        emit (XInternAtom display "WM_DELETE_WINDOW" false);;
        emit (XSetWMProtocols display w
                [reply_XInternAtom W "WM_DELETE_WINDOW" false]);;
        emit (XCreateGC display w);;
        modify (set_xGraphicContext (reply_XCreateGC W));;
        gc ← gets xGraphicContext;
        emit (XSetForeground display gc (reply_WhitePixel W));;
        emit (XSetBackground display gc (reply_BlackPixel W));;
        let winAttr' :=
          mkXSetWindowAttributes 0 0 0 true plug_parent_event_mask in
        emit (XCreateWindow display w 0 0 (to_unsigned (width size))
                (to_unsigned (height size))
                border_width (depth vInfo) InputOutput CopyFromParent
                winAttrMask winAttr');;
        modify (set_plugParentWindow (reply_XCreateWindow W w));;
        pp ← gets plugParentWindow;
        emit (XSelectInput display pp
                (Z.lor SubstructureNotifyMask PropertyChangeMask));;
        emit (XMapWindow display pp);;
        emit (RunLoop_registerWindow pp HandlePlugEvent);;
        emit (RunLoop_registerWindow w HandleMainWindowEvent);;
        mret true
    end.

(** [X11Window::make]: a fresh object, then [init]; the pointer is null when
    [init] returns false. *)
Definition make (W : World) (name : string) (size : Size) (resizeable : bool)
    (controller' : Pointer) (display : Display) (windowClosedFunc' : bool)
    : list call * result (option Impl) :=
  match init W name size resizeable controller' display windowClosedFunc'
          Impl_new with
  | (tr, Returned true s) => (tr, Returned (Some s) s)
  | (tr, Returned false s) => (tr, Returned None s)
  | (tr, Stopped why) => (tr, Stopped why)
  end.

(** ** The life of a window after [init]

    The run loop delivers the events of the main window to
    [handleMainWindowEvent] and those of the plug parent and plug windows to
    [handlePlugEvent]; the host and the plug-in call the public members.  A
    run is any sequence of such calls, each one in the world of its time; it
    ends when the process stops. *)
Inductive dispatch :=
| MainWindowEvent (e : XEvent)
| PlugEvent (e : XEvent)
| CallShow
| CallClose
| CallResize (newSize : Size)
| CallRegisterEventHandler (handler : Pointer) (fd : FileDescriptor)
| CallUnregisterEventHandler (handler : Pointer)
| CallRegisterTimer (handler : Pointer) (milliseconds : TimerInterval)
| CallUnregisterTimer (handler : Pointer).

Definition step (W : World) (d : dispatch) : M unit :=
  match d with
  | MainWindowEvent e => handleMainWindowEvent W e;; mret ()
  | PlugEvent e => handlePlugEvent W e;; mret ()
  | CallShow => show
  | CallClose => close
  | CallResize newSize => resize newSize false
  | CallRegisterEventHandler h fd => registerEventHandler h fd;; mret ()
  | CallUnregisterEventHandler h => unregisterEventHandler W h;; mret ()
  | CallRegisterTimer h ms => registerTimer W h ms;; mret ()
  | CallUnregisterTimer h => unregisterTimer W h;; mret ()
  end.

Fixpoint run (steps : list (World * dispatch)) : M unit :=
  match steps with
  | [] => mret ()
  | (W, d) :: rest => step W d;; run rest
  end.

(** The objects a process can hold: a fresh one, and what [init] and the
    calls of a run make of it. *)
Inductive reachable : Impl → Prop :=
| reachable_new : reachable Impl_new
| reachable_init W name size resizeable c dpy f s tr b s' :
    reachable s →
    init W name size resizeable c dpy f s = (tr, Returned b s') →
    reachable s'
| reachable_step W d s tr s' :
    reachable s →
    step W d s = (tr, Returned () s') →
    reachable s'.

(** ** Reading traces *)

(** The two requests of one [send_xembed_message] to the plug window of [s]. *)
Definition xembed_message (s : Impl) (message data2 : Z) : list call :=
  [XSendEvent (xDisplay s) (plugWindow s) false NoEventMask
     (ClientMessage (plugWindow s) (xEmbedAtom s) 32 CurrentTime message 0
        (plugParentWindow s) data2);
   XSync (xDisplay s) false].

Definition is_XSendEvent (c : call) : bool :=
  match c with XSendEvent _ _ _ _ _ => true | _ => false end.

Definition is_XReparentWindow (c : call) : bool :=
  match c with XReparentWindow _ _ _ _ _ => true | _ => false end.

(** The window a call tells that it is embedded, if it is the
    XEMBED_EMBEDDED_NOTIFY message. *)
Definition embedded_notify (c : call) : option Window :=
  match c with
  | XSendEvent _ w _ _ (ClientMessage _ _ _ _ l1 _ _ _) =>
      if l1 =? XEMBED_EMBEDDED_NOTIFY then Some w else None
  | _ => None
  end.

Definition embedded_windows (tr : list call) : list Window :=
  omap embedded_notify tr.

(** A step that starts an embedding: the plug handler receives a CreateNotify
    whose parent is [pp]. *)
Definition is_embedding_create (pp : Window) (d : dispatch) : bool :=
  match d with
  | PlugEvent (CreateNotify parent _) => parent =? pp
  | _ => false
  end.

(** [show_once shown tr]: no [onShow] of [tr] comes while the window is
    already shown, where an [onShow] starts a shown period and an [onClose]
    ends it. *)
Fixpoint show_once (shown : bool) (tr : list call) : bool :=
  match tr with
  | [] => true
  | Controller_onShow :: tr' => negb shown && show_once true tr'
  | Controller_onClose :: tr' => show_once false tr'
  | _ :: tr' => show_once shown tr'
  end.

Fixpoint shown_after (shown : bool) (tr : list call) : bool :=
  match tr with
  | [] => shown
  | Controller_onShow :: tr' => shown_after true tr'
  | Controller_onClose :: tr' => shown_after false tr'
  | _ :: tr' => shown_after shown tr'
  end.

(** The atoms the handshake works with: the stored one, or the one interned
    on the way when none is stored yet. *)
Definition info_atom (W : World) (s : Impl) : Atom :=
  if xEmbedInfoAtom s =? None_ then reply_XInternAtom W "_XEMBED_INFO" true
  else xEmbedInfoAtom s.

Definition embed_atom (W : World) (s : Impl) : Atom :=
  if xEmbedAtom s =? None_ then reply_XInternAtom W "_XEMBED" true
  else xEmbedAtom s.

(** The requests of [getXEmbedInfo] for the window [window]. *)
Definition read_info (W : World) (s : Impl) (window : Window) : list call :=
  (if xEmbedInfoAtom s =? None_
   then [XInternAtom (xDisplay s) "_XEMBED_INFO" true] else [])
  ++ [XGetWindowProperty (xDisplay s) window (info_atom W s) 0 8 false
        (info_atom W s)].

(** The object after a completed handshake with [window]. *)
Definition embedded (W : World) (s : Impl) (window : Window)
    (info : XEmbedInfo) : Impl :=
  mkImpl (controller s) (windowClosedFunc s) (xDisplay s) (Some info)
    (xWindow s) (plugParentWindow s) window (xGraphicContext s)
    (info_atom W s) (embed_atom W s) (isMapped s) (mCurrentSize s)
    (eventHandlers s) (timerHandlers s).

(** The embedding state is consistent: an interned _XEMBED atom comes with a
    non-null [xembedInfo]. *)
Definition embedding_consistent (s : Impl) : Prop :=
  xEmbedAtom s = None_ ∨ is_Some (xembedInfo s).

(** ** Sample worlds and objects *)

(** A display on which the XEMBED atoms exist, a 24 bit TrueColor visual is
    there, and every window carries an _XEMBED_INFO of version 1 with no
    flag set: the buffer of its two items is the array of longs 1, 0. *)
Definition atom_of (name : string) : Atom :=
  if String.eqb name "_XEMBED_INFO" then 101
  else if String.eqb name "_XEMBED" then 102
  else if String.eqb name "WM_DELETE_WINDOW" then 103
  else None_.

Definition name_of (a : Atom) : string :=
  if a =? 101 then "_XEMBED_INFO"
  else if a =? 102 then "_XEMBED"
  else if a =? 103 then "WM_DELETE_WINDOW"
  else "".

Definition sample_world : World :=
  {| reply_XInternAtom := λ name _, atom_of name;
     reply_DefaultScreen := 0;
     reply_DisplayWidth := 1920;
     reply_DisplayHeight := 1080;
     reply_BlackPixel := 0;
     reply_WhitePixel := 16777215;
     reply_RootWindow := 1;
     reply_XMatchVisualInfo := Some (mkXVisualInfo 33 24);
     reply_XCreateColormap := 7;
     reply_XCreateWindow := λ parent, 2 * parent + 10;
     reply_XCreateGC := 5;
     reply_XGetWindowProperty :=
       λ _ _, (Success, Some (mkXPropertyData 1 [0]));
     reply_XGetAtomName := name_of;
     reply_XGetGeometry := λ _, mkSize 640 480;
     reply_constrainSize := λ sz, sz;
     reply_registerTimer := 1;
     unordered_map_order := map_to_list |}.

Definition with_XGetWindowProperty
    (f : Window → Atom → Z * option XPropertyData) (W : World) : World :=
  mkWorld (reply_XInternAtom W) (reply_DefaultScreen W) (reply_DisplayWidth W)
    (reply_DisplayHeight W) (reply_BlackPixel W) (reply_WhitePixel W)
    (reply_RootWindow W) (reply_XMatchVisualInfo W) (reply_XCreateColormap W)
    (reply_XCreateWindow W) (reply_XCreateGC W) f (reply_XGetAtomName W)
    (reply_XGetGeometry W) (reply_constrainSize W) (reply_registerTimer W)
    (unordered_map_order W).

Definition with_XMatchVisualInfo (v : option XVisualInfo) (W : World)
    : World :=
  mkWorld (reply_XInternAtom W) (reply_DefaultScreen W) (reply_DisplayWidth W)
    (reply_DisplayHeight W) (reply_BlackPixel W) (reply_WhitePixel W)
    (reply_RootWindow W) v (reply_XCreateColormap W)
    (reply_XCreateWindow W) (reply_XCreateGC W) (reply_XGetWindowProperty W)
    (reply_XGetAtomName W) (reply_XGetGeometry W) (reply_constrainSize W)
    (reply_registerTimer W) (unordered_map_order W).

(** A display whose windows carry no _XEMBED_INFO property. *)
Definition world_without_info : World :=
  with_XGetWindowProperty (λ _ _, (Success, None)) sample_world.

(** A display whose windows announce themselves as mapped: the property has
    the items version 1 and flags XEMBED_MAPPED, which Xlib hands back as the
    longs 1, 1. *)
Definition world_with_mapped_flag : World :=
  with_XGetWindowProperty
    (λ _ _, (Success, Some (mkXPropertyData 1 [XEMBED_MAPPED]))) sample_world.

(** A display without a 24 bit TrueColor visual. *)
Definition world_without_visual : World :=
  with_XMatchVisualInfo None sample_world.

(** The object [init] leaves in [sample_world] for a 640x480 window on the
    display [9]: main window 12, plug parent 34. *)
Definition sample_window : Impl :=
  {| controller := 8; windowClosedFunc := true; xDisplay := 9;
     xembedInfo := None; xWindow := 12; plugParentWindow := 34;
     plugWindow := 0; xGraphicContext := 5; xEmbedInfoAtom := 101;
     xEmbedAtom := None_; isMapped := false; mCurrentSize := mkSize 640 480;
     eventHandlers := ∅; timerHandlers := ∅ |}.

(** [sample_window] after the plug window 40 was embedded. *)
Definition sample_embedded : Impl :=
  {| controller := 8; windowClosedFunc := true; xDisplay := 9;
     xembedInfo := Some (mkXEmbedInfo 1 0); xWindow := 12;
     plugParentWindow := 34; plugWindow := 40; xGraphicContext := 5;
     xEmbedInfoAtom := 101; xEmbedAtom := 102; isMapped := false;
     mCurrentSize := mkSize 640 480;
     eventHandlers := ∅; timerHandlers := ∅ |}.

(** ** Further readings of the object and its traces *)

(** The requests of a resize that is carried out: the main window, then the
    plug parent window, each one only when the object has it. *)
Definition resize_requests (s : Impl) (newSize : Size) : list call :=
  (if xWindow s =? 0 then []
   else [XResizeWindow (xDisplay s) (xWindow s)
           (to_unsigned (width newSize)) (to_unsigned (height newSize))])
  ++ (if plugParentWindow s =? 0 then []
      else [XResizeWindow (xDisplay s) (plugParentWindow s)
              (to_unsigned (width newSize)) (to_unsigned (height newSize))]).

(** The window a resize request is addressed to. *)
Definition resized_window (c : call) : option Window :=
  match c with
  | XResizeWindow _ w _ _ => Some w
  | _ => None
  end.

(** The object [onClose] leaves, and what the main handler calls on the way
    there. *)
Definition closed (s : Impl) : Impl :=
  set_isMapped false (set_xWindow 0 (set_xDisplay nullptr s)).

Definition close_calls (s : Impl) : list call :=
  [Controller_onClose;
   XFreeGC (xDisplay s) (xGraphicContext s);
   XDestroyWindow (xDisplay s) (xWindow s)]
  ++ (if windowClosedFunc s then [WindowClosedFunc] else []).


Definition same_registrations (s s' : Impl) : Prop :=
  eventHandlers s' = eventHandlers s ∧ timerHandlers s' = timerHandlers s.

(** The fields of the main window, which the plug handler has no business
    with. *)
Definition same_main_window (s s' : Impl) : Prop :=
  controller s' = controller s
  ∧ windowClosedFunc s' = windowClosedFunc s
  ∧ xDisplay s' = xDisplay s
  ∧ xWindow s' = xWindow s
  ∧ xGraphicContext s' = xGraphicContext s
  ∧ isMapped s' = isMapped s
  ∧ mCurrentSize s' = mCurrentSize s.

Definition is_CreateNotify (e : XEvent) : bool :=
  match e with CreateNotify _ _ => true | _ => false end.

(** A call is acceptable on the wire of the XEmbed protocol: if it sends an
    event, the event is a 32 bit ClientMessage to the very window it is sent
    to, not propagated and without event mask, stamped [CurrentTime], with
    detail 0 and the embedder [pp] as first datum, and its opcode is one of
    the four the module uses. *)
Definition is_xembed_message (pp : Window) (c : call) : bool :=
  match c with
  | XSendEvent _ w propagate mask (ClientMessage w' _ format l0 l1 l2 l3 _) =>
      negb propagate && (mask =? NoEventMask) && (w' =? w) && (format =? 32)
      && (l0 =? CurrentTime) && (l2 =? 0) && (l3 =? pp)
      && ((l1 =? XEMBED_EMBEDDED_NOTIFY) || (l1 =? XEMBED_WINDOW_ACTIVATE)
          || (l1 =? XEMBED_WINDOW_DEACTIVATE) || (l1 =? XEMBED_FOCUS_IN))
  | XSendEvent _ _ _ _ _ => false
  | _ => true
  end.

(** Every sent event is followed at once by an [XSync] of the same display
    that discards nothing. *)
Fixpoint sends_synced (tr : list call) : bool :=
  match tr with
  | [] => true
  | XSendEvent dpy _ _ _ _ :: rest =>
      match rest with
      | XSync dpy' false :: _ => (dpy' =? dpy) && sends_synced rest
      | _ => false
      end
  | _ :: rest => sends_synced rest
  end.

Definition is_XInternAtom (c : call) : bool :=
  match c with XInternAtom _ _ _ => true | _ => false end.

(** The invariants of the object the guards of the code keep. *)
Definition info_unmapped (s : Impl) : Prop :=
  ∀ info, xembedInfo s = Some info → Z.land (flags info) XEMBED_MAPPED = 0.

Definition no_null_handler (s : Impl) : Prop :=
  (∀ fd, eventHandlers s !! fd ≠ Some nullptr)
  ∧ (∀ id, timerHandlers s !! id ≠ Some nullptr).

(** A call that builds something on the server or hooks a window into the
    run loop. *)
Definition builds (c : call) : bool :=
  match c with
  | XCreateColormap _ _ _ _
  | XCreateWindow _ _ _ _ _ _ _ _ _ _ _ _
  | XCreateGC _ _
  | XMapWindow _ _
  | RunLoop_registerWindow _ _ => true
  | _ => false
  end.

(** The window a map request is addressed to. *)
Definition mapped_window (c : call) : option Window :=
  match c with
  | XMapWindow _ w => Some w
  | _ => None
  end.

(** [callPlugEventHandlers]: the calls [handler->onFDIsSet (fd)] it makes
    over the descriptor map, in iteration order, each one as the pair of the
    handler and the descriptor it is given. *)
Definition callPlugEventHandlers (W : World) (s : Impl)
    : list (Pointer * FileDescriptor) :=
  (λ e, (e.2, e.1)) <$> unordered_map_order W (eventHandlers s).

(** * Properties *)

(** Unfolds the monad and the small member functions. *)
Ltac unfold_M :=
  cbv [mbind mret M_MBind M_MRet M_bind M_ret gets emit modify halt exit when
       trace outcome send_xembed_message xembedInfo_version forward_to_plug
       send_to_plug show close onClose resize getSize checkSize].

(** Runs a member function on an object given by its fields: the monad is
    unfolded and the conditions the code tests are decided in program order,
    from a hypothesis when one settles them, by cases otherwise. *)
Ltac exec_on c :=
  first [ match goal with H : c = _ |- _ => rewrite H end
        | destruct c eqn:? ].

Ltac exec_branch :=
  match goal with
  | |- context [ (if ?c then _ else _) _ ] => exec_on c
  | |- context [ (match ?x with Some _ => _ | None => _ end) _ ] => exec_on x
  | |- context [ (let (_, _) := ?p in _) _ ] => exec_on p
  | |- context [ let (_, _) := match ?x with Some _ => _ | None => _ end
                 in _ ] => exec_on x
  | |- context [ let (_, _) := if ?c then _ else _ in _ ] => exec_on c
  end.

Ltac exec :=
  unfold_M;
  repeat first [ progress cbn -[Z.land emplace lookup insert delete
                                to_unsigned XEmbedInfo_view]
               | exec_branch ].

Ltac unfold_members :=
  unfold step, handleMainWindowEvent, handlePlugEvent, getXEmbedInfo,
    registerEventHandler, unregisterEventHandler, registerTimer,
    unregisterTimer.

(** The cases of a step: every dispatch, and every event type of the two
    handlers. *)
Ltac step_cases d :=
  let e := fresh "e" in
  destruct d as [e|e| | | | | | |]; [destruct e|destruct e|..];
  unfold_members; exec.

(** ** The sample objects are what the code makes *)

Example init_sample_window :
  init sample_world "kodo" (mkSize 640 480) false 8 9 true Impl_new
  = ([XInternAtom 9 "_XEMBED_INFO" true;
      XMatchVisualInfo 9 0 24 TrueColor;
      XCreateColormap 9 1 33 AllocNone;
      XCreateWindow 9 1 0 0 1920 1080 1 24 InputOutput 33 8202
        (mkXSetWindowAttributes 16777215 0 7 false 0);
      XFlush 9;
      XResizeWindow 9 12 640 480;
      XSelectInput 9 12 2785280;
      XSetWMNormalHints 9 12 (mkXSizeHints 48 640 480 640 480);
      XStoreName 9 12 "kodo";
      XSetWMIconName 9 12 "kodo";
      XInternAtom 9 "WM_DELETE_WINDOW" false;
      XSetWMProtocols 9 12 [103];
      XCreateGC 9 12;
      XSetForeground 9 5 16777215;
      XSetBackground 9 5 0;
      XCreateWindow 9 12 0 0 640 480 1 24 InputOutput CopyFromParent 8202
        (mkXSetWindowAttributes 0 0 0 true 40973);
      XSelectInput 9 34 4718592;
      XMapWindow 9 34;
      RunLoop_registerWindow 34 HandlePlugEvent;
      RunLoop_registerWindow 12 HandleMainWindowEvent],
     Returned true sample_window).
Proof. reflexivity. Qed.

Example embed_sample_window :
  handlePlugEvent sample_world (CreateNotify 34 40) sample_window
  = ([XGetWindowProperty 9 40 101 0 8 false 101;
      RunLoop_registerWindow 40 HandlePlugEvent;
      XInternAtom 9 "_XEMBED" true;
      XSendEvent 9 40 false NoEventMask
        (ClientMessage 40 102 32 CurrentTime XEMBED_EMBEDDED_NOTIFY 0 34 1);
      XSync 9 false;
      XMapWindow 9 40;
      XResizeWindow 9 40 640 480;
      XSendEvent 9 40 false NoEventMask
        (ClientMessage 40 102 32 CurrentTime XEMBED_WINDOW_ACTIVATE 0 34 1);
      XSync 9 false;
      XSendEvent 9 40 false NoEventMask
        (ClientMessage 40 102 32 CurrentTime XEMBED_FOCUS_IN 0 34 1);
      XSync 9 false;
      XSync 9 false],
     Returned true sample_embedded).
Proof. reflexivity. Qed.

Lemma sample_window_reachable : reachable sample_window.
Proof.
  eapply reachable_init; [apply reachable_new | apply init_sample_window].
Qed.

Lemma sample_embedded_reachable : reachable sample_embedded.
Proof.
  eapply (reachable_step sample_world (PlugEvent (CreateNotify 34 40)));
    [apply sample_window_reachable | reflexivity].
Qed.

(** ** Focus forwarding of the main window *)

(** C3: on FocusIn, [handleMainWindowEvent] sends XEMBED_WINDOW_ACTIVATE to
    [plugWindow], and on FocusOut XEMBED_WINDOW_DEACTIVATE, exactly when
    [xembedInfo] is non-null; when it is null nothing is sent.  In both
    cases the object is left as it was. *)
Theorem focus_events_forwarded_iff_xembedInfo (W : World) (s : Impl)
    (window : Window) :
  match xembedInfo s with
  | Some info =>
      handleMainWindowEvent W (FocusIn window) s
      = (xembed_message s XEMBED_WINDOW_ACTIVATE (version info),
         Returned false s)
      ∧ handleMainWindowEvent W (FocusOut window) s
        = (xembed_message s XEMBED_WINDOW_DEACTIVATE (version info),
           Returned false s)
  | None =>
      handleMainWindowEvent W (FocusIn window) s = ([], Returned false s)
      ∧ handleMainWindowEvent W (FocusOut window) s = ([], Returned false s)
  end.
Proof.
  destruct s as [c f dpy xi xw pp pw gc ia ea mp cur eh th].
  unfold handleMainWindowEvent, xembed_message. unfold_M.
  destruct xi as [info|]; split; reflexivity.
Qed.

(** ** The embedding handshake *)

(** The three ways through the CreateNotify case under [plugParentWindow]:
    the handshake carried out, and the two exits. *)
Lemma handshake_run (W : World) (s : Impl) (window : Window)
    (data : XPropertyData) :
  reply_XGetWindowProperty W window (info_atom W s) = (Success, Some data) →
  Z.land (flags (XEmbedInfo_view data)) XEMBED_MAPPED = 0 →
  embed_atom W s ≠ None_ →
  let info := XEmbedInfo_view data in
  let s' := embedded W s window info in
  handlePlugEvent W (CreateNotify (plugParentWindow s) window) s
  = (read_info W s window
     ++ [RunLoop_registerWindow window HandlePlugEvent]
     ++ (if xEmbedAtom s =? None_
         then [XInternAtom (xDisplay s) "_XEMBED" true] else [])
     ++ xembed_message s' XEMBED_EMBEDDED_NOTIFY (version info)
     ++ [XMapWindow (xDisplay s) window;
         XResizeWindow (xDisplay s) window
           (to_unsigned (width (mCurrentSize s)))
           (to_unsigned (height (mCurrentSize s)))]
     ++ xembed_message s' XEMBED_WINDOW_ACTIVATE (version info)
     ++ xembed_message s' XEMBED_FOCUS_IN (version info)
     ++ [XSync (xDisplay s) false],
     Returned true s').
Proof.
  destruct s as [c f dpy xi xw pp pw gc ia ea mp cur eh th].
  unfold handlePlugEvent, getXEmbedInfo, read_info, embedded, xembed_message,
    info_atom, embed_atom.
  unfold_M. cbn -[Z.land to_unsigned XEmbedInfo_view].
  rewrite Z.eqb_refl. cbn -[Z.land to_unsigned XEmbedInfo_view].
  intros Hprop Hflag Hatom.
  destruct (ia =? None_) eqn:Hia;
    cbn -[Z.land to_unsigned XEmbedInfo_view] in *; rewrite Hprop;
    cbn -[Z.land to_unsigned XEmbedInfo_view]; rewrite Hflag;
    cbn -[to_unsigned XEmbedInfo_view];
    destruct (ea =? None_) eqn:Hea; cbn -[to_unsigned XEmbedInfo_view] in *;
    try (apply Z.eqb_neq in Hatom; rewrite Hatom);
    try rewrite Hea; reflexivity.
Qed.

Lemma handshake_exits_without_data (W : World) (s : Impl) (window : Window)
    (err : Z) (data : option XPropertyData) :
  reply_XGetWindowProperty W window (info_atom W s) = (err, data) →
  err ≠ Success ∨ data = None →
  handlePlugEvent W (CreateNotify (plugParentWindow s) window) s
  = (read_info W s window
     ++ [Cerr "XGetWindowProperty for _XEMBED_INFO failed"],
     Stopped (Exited (-1))).
Proof.
  destruct s as [c f dpy xi xw pp pw gc ia ea mp cur eh th].
  unfold handlePlugEvent, getXEmbedInfo, read_info, info_atom.
  unfold_M. cbn -[Z.land to_unsigned XEmbedInfo_view].
  rewrite Z.eqb_refl. cbn -[Z.land to_unsigned XEmbedInfo_view].
  intros Hprop Hbad.
  destruct (ia =? None_) eqn:Hia;
    cbn -[Z.land to_unsigned XEmbedInfo_view] in *; rewrite Hprop;
    cbn -[Z.land to_unsigned XEmbedInfo_view];
    (destruct (err =? Success) eqn:Herr;
     cbn -[Z.land to_unsigned XEmbedInfo_view];
     [ destruct Hbad as [Hbad| ->]; [apply Z.eqb_eq in Herr; done | done]
     | done ]).
Qed.

Lemma handshake_exits_when_flagged (W : World) (s : Impl) (window : Window)
    (data : XPropertyData) :
  reply_XGetWindowProperty W window (info_atom W s) = (Success, Some data) →
  Z.land (flags (XEmbedInfo_view data)) XEMBED_MAPPED ≠ 0 →
  handlePlugEvent W (CreateNotify (plugParentWindow s) window) s
  = (read_info W s window ++ [Cerr "Window already mapped error"],
     Stopped (Exited (-1))).
Proof.
  destruct s as [c f dpy xi xw pp pw gc ia ea mp cur eh th].
  unfold handlePlugEvent, getXEmbedInfo, read_info, info_atom.
  unfold_M. cbn -[Z.land to_unsigned XEmbedInfo_view].
  rewrite Z.eqb_refl. cbn -[Z.land to_unsigned XEmbedInfo_view].
  intros Hprop Hflag. apply Z.eqb_neq in Hflag.
  destruct (ia =? None_) eqn:Hia;
    cbn -[Z.land to_unsigned XEmbedInfo_view] in *; rewrite Hprop;
    cbn -[Z.land to_unsigned XEmbedInfo_view]; rewrite Hflag; reflexivity.
Qed.

(** C1, as the code has it: a CreateNotify whose parent is
    [plugParentWindow] starts the handshake: the handler records the window
    as [plugWindow] and reads its _XEMBED_INFO property.  When the read
    yields data, the XEMBED_MAPPED bit of the flags word the code tests in
    it is clear and the _XEMBED atom exists, the handler registers the
    window with the run loop, sends XEMBED_EMBEDDED_NOTIFY, maps the window,
    resizes it to [mCurrentSize], sends XEMBED_WINDOW_ACTIVATE and then
    XEMBED_FOCUS_IN, in that order, and returns true.  When the read fails
    or yields no data, or the tested bit is set, the handler ends the
    process with [exit (-1)] after reading the property: nothing is
    registered, sent or mapped.  The flags word tested is the [flags] field
    of the buffer taken as an [XEmbedInfo] ([XEmbedInfo_view]). *)
Theorem CreateNotify_handshake (W : World) (s : Impl) (window : Window) :
  let e := CreateNotify (plugParentWindow s) window in
  (∀ data,
     reply_XGetWindowProperty W window (info_atom W s) = (Success, Some data) →
     let info := XEmbedInfo_view data in
     Z.land (flags info) XEMBED_MAPPED = 0 →
     embed_atom W s ≠ None_ →
     let s' := embedded W s window info in
     handlePlugEvent W e s
     = (read_info W s window
        ++ [RunLoop_registerWindow window HandlePlugEvent]
        ++ (if xEmbedAtom s =? None_
            then [XInternAtom (xDisplay s) "_XEMBED" true] else [])
        ++ xembed_message s' XEMBED_EMBEDDED_NOTIFY (version info)
        ++ [XMapWindow (xDisplay s) window;
            XResizeWindow (xDisplay s) window
              (to_unsigned (width (mCurrentSize s)))
              (to_unsigned (height (mCurrentSize s)))]
        ++ xembed_message s' XEMBED_WINDOW_ACTIVATE (version info)
        ++ xembed_message s' XEMBED_FOCUS_IN (version info)
        ++ [XSync (xDisplay s) false],
        Returned true s'))
  ∧ (∀ err data,
       reply_XGetWindowProperty W window (info_atom W s) = (err, data) →
       err ≠ Success ∨ data = None →
       handlePlugEvent W e s
       = (read_info W s window
          ++ [Cerr "XGetWindowProperty for _XEMBED_INFO failed"],
          Stopped (Exited (-1))))
  ∧ (∀ data,
       reply_XGetWindowProperty W window (info_atom W s)
       = (Success, Some data) →
       Z.land (flags (XEmbedInfo_view data)) XEMBED_MAPPED ≠ 0 →
       handlePlugEvent W e s
       = (read_info W s window ++ [Cerr "Window already mapped error"],
          Stopped (Exited (-1)))).
Proof.
  split; [|split].
  - intros data Hprop info Hflag Hatom. apply handshake_run; assumption.
  - intros err data. apply handshake_exits_without_data.
  - intros data. apply handshake_exits_when_flagged.
Qed.

Lemma CreateNotify_handshake_witness :
  handlePlugEvent sample_world (CreateNotify 34 40) sample_window
  = ([XGetWindowProperty 9 40 101 0 8 false 101;
      RunLoop_registerWindow 40 HandlePlugEvent;
      XInternAtom 9 "_XEMBED" true;
      XSendEvent 9 40 false NoEventMask
        (ClientMessage 40 102 32 CurrentTime XEMBED_EMBEDDED_NOTIFY 0 34 1);
      XSync 9 false;
      XMapWindow 9 40;
      XResizeWindow 9 40 640 480;
      XSendEvent 9 40 false NoEventMask
        (ClientMessage 40 102 32 CurrentTime XEMBED_WINDOW_ACTIVATE 0 34 1);
      XSync 9 false;
      XSendEvent 9 40 false NoEventMask
        (ClientMessage 40 102 32 CurrentTime XEMBED_FOCUS_IN 0 34 1);
      XSync 9 false;
      XSync 9 false],
     Returned true sample_embedded).
Proof.
  apply (proj1 (CreateNotify_handshake sample_world sample_window 40)
           (mkXPropertyData 1 [0])).
  - reflexivity.
  - reflexivity.
  - discriminate.
Defined.

(** C1 fails as stated: the new window 40 is created under the plug parent
    34 but carries no _XEMBED_INFO property; the handler records it, reads
    the property and exits, so no handshake follows and nothing is
    returned. *)
Lemma CreateNotify_without_info_exits :
  plugParentWindow sample_window = 34
  ∧ handlePlugEvent world_without_info (CreateNotify 34 40) sample_window
    = ([XGetWindowProperty 9 40 101 0 8 false 101;
        Cerr "XGetWindowProperty for _XEMBED_INFO failed"],
       Stopped (Exited (-1)))
  ∧ ¬ ∃ tr s',
        handlePlugEvent world_without_info (CreateNotify 34 40) sample_window
        = (tr, Returned true s').
Proof.
  split; [reflexivity|]. split; [reflexivity|].
  intros (tr & s' & H). vm_compute in H. discriminate H.
Qed.

(** ** What the members leave alone *)

Lemma init_keeps_embedding W name size resizeable c dpy f s tr b s' :
  init W name size resizeable c dpy f s = (tr, Returned b s') →
  xEmbedAtom s' = xEmbedAtom s ∧ xembedInfo s' = xembedInfo s
  ∧ plugWindow s' = plugWindow s.
Proof.
  destruct s as [c0 f0 dpy0 xi xw pp pw gc ia ea mp cur eh th].
  unfold init. exec; intros; simplify_eq; auto.
Qed.

Lemma step_keeps_consistent W d s tr s' :
  step W d s = (tr, Returned () s') →
  embedding_consistent s → embedding_consistent s'.
Proof.
  destruct s as [c0 f0 dpy0 xi xw pp pw gc ia ea mp cur eh th].
  unfold embedding_consistent.
  step_cases d; intros; simplify_eq; cbn in *; auto.
Qed.


Lemma reachable_consistent s : reachable s → embedding_consistent s.
Proof.
  induction 1 as [|W name size resizeable c dpy f s tr b s' _ IH Hinit
                  |W d s tr s' _ IH Hstep].
  - left. reflexivity.
  - destruct (init_keeps_embedding _ _ _ _ _ _ _ _ _ _ _ Hinit)
      as (Ha & Hi & _).
    unfold embedding_consistent. rewrite Ha, Hi. exact IH.
  - eapply step_keeps_consistent; eassumption.
Qed.

(** ** Focus requests of the plug-in *)

(** C6: in every object the process can hold, a ClientMessage whose message
    type is the _XEMBED atom of the object and whose opcode [data.l[1]] is
    XEMBED_REQUEST_FOCUS makes [handlePlugEvent] send XEMBED_FOCUS_IN to
    [plugWindow]. *)
Theorem request_focus_answered (W : World) (s : Impl)
    (window : Window) (message_type : Atom) (format l0 l2 l3 l4 : Z) :
  reachable s →
  message_type = xEmbedAtom s →
  message_type ≠ None_ →
  ∃ info,
    xembedInfo s = Some info
    ∧ handlePlugEvent W
        (ClientMessage window message_type format l0 XEMBED_REQUEST_FOCUS
           l2 l3 l4) s
      = ([XGetAtomName (xDisplay s) message_type;
          Cout (reply_XGetAtomName W message_type)]
         ++ xembed_message s XEMBED_FOCUS_IN (version info),
         Returned false s).
Proof.
  intros Hreach -> Hatom.
  destruct (reachable_consistent s Hreach) as [Hnone|[info Hinfo]];
    [congruence|].
  exists info. split; [exact Hinfo|].
  destruct s as [c0 f0 dpy0 xi xw pp pw gc ia ea mp cur eh th].
  cbn in Hinfo. subst xi.
  unfold handlePlugEvent, xembed_message. unfold_M. cbn.
  rewrite Z.eqb_refl. reflexivity.
Qed.

Lemma request_focus_answered_witness :
  handlePlugEvent sample_world
    (ClientMessage 34 102 32 0 XEMBED_REQUEST_FOCUS 0 0 0) sample_embedded
  = ([XGetAtomName 9 102; Cout "_XEMBED";
      XSendEvent 9 40 false NoEventMask
        (ClientMessage 40 102 32 CurrentTime XEMBED_FOCUS_IN 0 34 1);
      XSync 9 false],
     Returned false sample_embedded).
Proof.
  destruct (request_focus_answered sample_world sample_embedded 34 102 32
              0 0 0 0 sample_embedded_reachable eq_refl)
    as (info & Hinfo & Hrun).
  - discriminate.
  - injection Hinfo as <-. exact Hrun.
Defined.

(** Before a window is embedded the object has no _XEMBED atom: a focus
    request that carries the atom of the display is logged and not answered,
    and one whose message type is [None] reaches [xembedInfo->version] with a
    null [xembedInfo]. *)
Example request_focus_before_embedding :
  handlePlugEvent sample_world
    (ClientMessage 34 102 32 0 XEMBED_REQUEST_FOCUS 0 0 0) sample_window
  = ([XGetAtomName 9 102; Cout "_XEMBED"], Returned false sample_window)
  ∧ handlePlugEvent sample_world
      (ClientMessage 34 None_ 32 0 XEMBED_REQUEST_FOCUS 0 0 0) sample_window
    = ([XGetAtomName 9 None_; Cout ""], Stopped NullDereference).
Proof. split; reflexivity. Qed.

(** ** Creation of the window *)

Lemma init_without_atom W name size resizeable c dpy f s :
  reply_XInternAtom W "_XEMBED_INFO" true = None_ →
  init W name size resizeable c dpy f s
  = ([XInternAtom dpy "_XEMBED_INFO" true; Cerr "_XEMBED_INFO does not exist"],
     Returned false
       (set_xEmbedInfoAtom None_
          (set_xDisplay dpy (set_controller c (set_windowClosedFunc f s))))).
Proof.
  intros Hatom. apply Z.eqb_eq in Hatom.
  destruct s as [c0 f0 dpy0 xi xw pp pw gc ia ea mp cur eh th].
  unfold init. exec; apply Z.eqb_eq in Hatom; rewrite Hatom; reflexivity.
Qed.

Lemma init_without_visual W name size resizeable c dpy f s :
  reply_XInternAtom W "_XEMBED_INFO" true ≠ None_ →
  reply_XMatchVisualInfo W = None →
  init W name size resizeable c dpy f s
  = ([XInternAtom dpy "_XEMBED_INFO" true;
      XMatchVisualInfo dpy (reply_DefaultScreen W) 24 TrueColor],
     Stopped (Exited (-1))).
Proof.
  intros Hatom Hvis. apply Z.eqb_neq in Hatom.
  destruct s as [c0 f0 dpy0 xi xw pp pw gc ia ea mp cur eh th].
  unfold init. exec; reflexivity.
Qed.

Lemma init_with_visual W name size resizeable c dpy f s vInfo :
  reply_XInternAtom W "_XEMBED_INFO" true ≠ None_ →
  reply_XMatchVisualInfo W = Some vInfo →
  ∃ tr s',
    init W name size resizeable c dpy f s = (tr, Returned true s')
    ∧ xWindow s' = reply_XCreateWindow W (reply_RootWindow W)
    ∧ plugParentWindow s' = reply_XCreateWindow W (xWindow s')
    ∧ XCreateWindow dpy (reply_RootWindow W) 0 0
        (to_unsigned (reply_DisplayWidth W))
        (to_unsigned (reply_DisplayHeight W)) 1 (depth vInfo) InputOutput
        (visual vInfo) winAttrMask
        (mkXSetWindowAttributes (reply_WhitePixel W) (reply_BlackPixel W)
           (reply_XCreateColormap W) false 0) ∈ tr
    ∧ XCreateWindow dpy (xWindow s') 0 0 (to_unsigned (width size))
        (to_unsigned (height size)) 1
        (depth vInfo) InputOutput CopyFromParent winAttrMask
        (mkXSetWindowAttributes 0 0 0 true plug_parent_event_mask) ∈ tr
    ∧ RunLoop_registerWindow (plugParentWindow s') HandlePlugEvent ∈ tr
    ∧ RunLoop_registerWindow (xWindow s') HandleMainWindowEvent ∈ tr.
Proof.
  intros Hatom Hvis. apply Z.eqb_neq in Hatom.
  destruct s as [c0 f0 dpy0 xi xw pp pw gc ia ea mp cur eh th].
  unfold init. exec;
    (eexists _, _; split; [reflexivity|]; cbn;
     repeat split; try reflexivity; rewrite !list_elem_of_In; cbn; tauto).
Qed.

(** C7, as the code has it: [init] returns false, and [make] a null pointer,
    exactly when the _XEMBED_INFO atom does not exist on the display.  When
    the atom exists and the display has a 24 bit TrueColor visual, [init]
    creates the container window [xWindow] under the root window and the
    plug parent window under [xWindow], registers the plug handler for the
    plug parent and the main handler for [xWindow] with the run loop, and
    returns true, so [make] returns the window.  When the atom exists and
    there is no such visual, [init] ends the process with [exit (-1)]. *)
Theorem init_creates_both_windows (W : World) (name : string) (size : Size)
    (resizeable : bool) (c : Pointer) (dpy : Display) (f : bool) (s : Impl) :
  let atom := reply_XInternAtom W "_XEMBED_INFO" true in
  let root := reply_RootWindow W in
  let r := init W name size resizeable c dpy f s in
  let made := make W name size resizeable c dpy f in
  ((∃ tr s', r = (tr, Returned false s')) ↔ atom = None_)
  ∧ ((∃ tr s', made = (tr, Returned None s')) ↔ atom = None_)
  ∧ (atom ≠ None_ →
     ∀ vInfo, reply_XMatchVisualInfo W = Some vInfo →
     ∃ tr s',
       r = (tr, Returned true s')
       ∧ xWindow s' = reply_XCreateWindow W root
       ∧ plugParentWindow s' = reply_XCreateWindow W (xWindow s')
       ∧ XCreateWindow dpy root 0 0 (to_unsigned (reply_DisplayWidth W))
           (to_unsigned (reply_DisplayHeight W)) 1 (depth vInfo) InputOutput
           (visual vInfo) winAttrMask
           (mkXSetWindowAttributes (reply_WhitePixel W) (reply_BlackPixel W)
              (reply_XCreateColormap W) false 0) ∈ tr
       ∧ XCreateWindow dpy (xWindow s') 0 0 (to_unsigned (width size))
           (to_unsigned (height size)) 1
           (depth vInfo) InputOutput CopyFromParent winAttrMask
           (mkXSetWindowAttributes 0 0 0 true plug_parent_event_mask) ∈ tr
       ∧ RunLoop_registerWindow (plugParentWindow s') HandlePlugEvent ∈ tr
       ∧ RunLoop_registerWindow (xWindow s') HandleMainWindowEvent ∈ tr
       ∧ ∃ tr0 s0, made = (tr0, Returned (Some s0) s0))
  ∧ (atom ≠ None_ →
     reply_XMatchVisualInfo W = None →
     r = ([XInternAtom dpy "_XEMBED_INFO" true;
           XMatchVisualInfo dpy (reply_DefaultScreen W) 24 TrueColor],
          Stopped (Exited (-1)))).
Proof.
  intros atom root r made. subst atom root r made. unfold make.
  destruct (Z.eq_dec (reply_XInternAtom W "_XEMBED_INFO" true) None_)
    as [Hatom|Hatom].
  - rewrite !(init_without_atom _ _ _ _ _ _ _ _ Hatom).
    repeat split; try done; eauto.
  - destruct (reply_XMatchVisualInfo W) as [vInfo|] eqn:Hvis.
    + destruct (init_with_visual W name size resizeable c dpy f s vInfo
                  Hatom Hvis) as (tr & s' & Hrun & Hrest).
      destruct (init_with_visual W name size resizeable c dpy f Impl_new
                  vInfo Hatom Hvis) as (tr0 & s0 & Hrun0 & _).
      rewrite Hrun, Hrun0.
      repeat split; try done.
      * intros (? & ? & ?). congruence.
      * intros (? & ? & ?). congruence.
      * intros _ v [= <-]. exists tr, s'. split; [reflexivity|].
        destruct Hrest as (? & ? & ? & ? & ? & ?). repeat split; eauto.
    + rewrite !(init_without_visual _ _ _ _ _ _ _ _ Hatom Hvis).
      repeat split; try done.
      * intros (? & ? & ?). congruence.
      * intros (? & ? & ?). congruence.
Qed.

Lemma init_creates_both_windows_witness :
  reply_XInternAtom sample_world "_XEMBED_INFO" true ≠ None_
  ∧ ∃ tr s',
      init sample_world "kodo" (mkSize 640 480) false 8 9 true Impl_new
      = (tr, Returned true s')
      ∧ xWindow s' = 12 ∧ plugParentWindow s' = 34
      ∧ RunLoop_registerWindow 34 HandlePlugEvent ∈ tr
      ∧ RunLoop_registerWindow 12 HandleMainWindowEvent ∈ tr.
Proof.
  assert (Hatom : reply_XInternAtom sample_world "_XEMBED_INFO" true ≠ None_)
    by discriminate.
  split; [exact Hatom|].
  destruct (proj1 (proj2 (proj2
              (init_creates_both_windows sample_world "kodo" (mkSize 640 480)
                 false 8 9 true Impl_new)))
              Hatom (mkXVisualInfo 33 24) eq_refl)
    as (tr & s' & Hrun & Hxw & Hpp & _ & _ & Hplug & Hmain & _).
  exists tr, s'. rewrite Hpp, Hxw in Hplug. rewrite Hxw in Hmain, Hpp.
  repeat split; assumption.
Defined.

(** C7 fails as stated: on a display that has the _XEMBED_INFO atom but no
    24 bit TrueColor visual, [init] neither returns false nor returns a
    window: it leaves through [exit (-1)] before any window is created. *)
Lemma init_without_visual_exits :
  reply_XInternAtom world_without_visual "_XEMBED_INFO" true = 101
  ∧ init world_without_visual "kodo" (mkSize 640 480) false 8 9 true Impl_new
    = ([XInternAtom 9 "_XEMBED_INFO" true; XMatchVisualInfo 9 0 24 TrueColor],
       Stopped (Exited (-1)))
  ∧ make world_without_visual "kodo" (mkSize 640 480) false 8 9 true
    = ([XInternAtom 9 "_XEMBED_INFO" true; XMatchVisualInfo 9 0 24 TrueColor],
       Stopped (Exited (-1)))
  ∧ ¬ ∃ tr window s',
        make world_without_visual "kodo" (mkSize 640 480) false 8 9 true
        = (tr, Returned window s').
Proof.
  repeat split; try reflexivity.
  intros (tr & window & s' & H). vm_compute in H. discriminate H.
Qed.

(** ** Registration with the run loop *)

Lemma emplace_fresh (k v : Z) (m : gmap Z Z) :
  m !! k = None → emplace k v m = <[k := v]> m.
Proof. unfold emplace. intros ->. reflexivity. Qed.



Lemma find_handler_Some handler entries k h :
  find_handler handler entries = Some (k, h) →
  (k, h) ∈ entries ∧ h = handler.
Proof.
  induction entries as [|[k' h'] rest IH]; cbn; [discriminate|].
  destruct (h' =? handler) eqn:E.
  - intros [= -> ->]. apply Z.eqb_eq in E. split; [left|exact E].
  - intros H. destruct (IH H) as [Hin Heq]. split; [right; exact Hin|exact Heq].
Qed.

Lemma find_handler_None handler entries :
  find_handler handler entries = None →
  ∀ k, (k, handler) ∉ entries.
Proof.
  induction entries as [|[k' h'] rest IH]; cbn; intros H k Hin.
  - inversion Hin.
  - destruct (h' =? handler) eqn:E; [discriminate|].
    apply Z.eqb_neq in E.
    apply elem_of_cons in Hin as [[= -> ->]|Hin]; [congruence|].
    exact (IH H k Hin).
Qed.

Lemma iterates_entries_lookup W (m : gmap Z Z) k h :
  iterates_entries W →
  (k, h) ∈ unordered_map_order W m ↔ m !! k = Some h.
Proof.
  intros Horder. rewrite (Horder m). apply elem_of_map_to_list.
Qed.


Lemma sample_world_iterates : iterates_entries sample_world.
Proof. intros m. reflexivity. Qed.


(** ** Runs *)

Lemma run_cons W d rest s :
  run ((W, d) :: rest) s
  = match step W d s with
    | (tr, Returned _ s1) =>
        match run rest s1 with (tr', r) => (tr ++ tr', r) end
    | (tr, Stopped why) => (tr, Stopped why)
    end.
Proof. reflexivity. Qed.

(** An invariant of the steps is an invariant of the runs: [Inv] speaks of
    the object, [Good] of the calls made, [Ok] of the steps allowed. *)
Lemma run_invariant (Inv : Impl → Prop) (Ok : World * dispatch → Prop)
    (Good : call → Prop) :
  (∀ W d s tr r,
     Ok (W, d) → Inv s → step W d s = (tr, r) →
     Forall Good tr ∧ ∀ s', r = Returned () s' → Inv s') →
  ∀ steps s tr r,
    Forall Ok steps → Inv s → run steps s = (tr, r) →
    Forall Good tr ∧ ∀ s', r = Returned () s' → Inv s'.
Proof.
  intros Hstep steps.
  induction steps as [|[W d] rest IH]; intros s tr r Hok Hinv Hrun.
  - injection Hrun as <- <-. split; [constructor|].
    intros s' [= <-]. exact Hinv.
  - apply Forall_cons in Hok as [Hd Hrest].
    rewrite run_cons in Hrun.
    destruct (step W d s) as [tr1 r1] eqn:E1.
    destruct (Hstep W d s tr1 r1 Hd Hinv E1) as [Hgood1 Hinv1].
    destruct r1 as [[] s1|why].
    + destruct (run rest s1) as [tr2 r2] eqn:E2.
      injection Hrun as <- <-.
      destruct (IH s1 tr2 r2 Hrest (Hinv1 s1 eq_refl) E2) as [Hgood2 Hinv2].
      split; [apply Forall_app; split; assumption|exact Hinv2].
    + injection Hrun as <- <-. split; [exact Hgood1|]. intros s' [=].
Qed.

(** ** No reparenting *)

Lemma step_never_reparents W d s :
  Forall (λ c, is_XReparentWindow c = false) (trace (step W d) s).
Proof.
  destruct s as [c0 f0 dpy0 xi xw pp pw gc ia ea mp cur eh th].
  unfold trace.
  step_cases d; repeat constructor.
Qed.

Lemma init_never_reparents W name size resizeable c dpy f s :
  Forall (λ c, is_XReparentWindow c = false)
    (trace (init W name size resizeable c dpy f) s).
Proof.
  destruct s as [c0 f0 dpy0 xi xw pp pw gc ia ea mp cur eh th].
  unfold trace, init. exec; repeat constructor.
Qed.

(** C2, as the code has it: the module never reparents.  Neither [init] nor
    any call of a run issues an XReparentWindow request.  When the plug-in
    creates its window under [plugParentWindow] and the handshake is carried
    out (the _XEMBED_INFO data is read, the XEMBED_MAPPED bit the code tests
    is clear, the _XEMBED atom exists), the embedding step registers the
    window with the run loop, notifies it with XEMBED_EMBEDDED_NOTIFY, maps
    it and resizes it to [mCurrentSize], all of it where the window was
    created: it becomes [plugWindow], the plug parent is unchanged, and none
    of the requests is an XReparentWindow. *)
Theorem embedded_in_place_without_reparenting :
  (∀ W name size resizeable c dpy f s,
     Forall (λ c, is_XReparentWindow c = false)
       (trace (init W name size resizeable c dpy f) s))
  ∧ (∀ steps s,
       Forall (λ c, is_XReparentWindow c = false) (trace (run steps) s))
  ∧ (∀ W s window data,
       reply_XGetWindowProperty W window (info_atom W s)
       = (Success, Some data) →
       Z.land (flags (XEmbedInfo_view data)) XEMBED_MAPPED = 0 →
       embed_atom W s ≠ None_ →
       let m := handlePlugEvent W (CreateNotify (plugParentWindow s) window) in
       RunLoop_registerWindow window HandlePlugEvent ∈ trace m s
       ∧ embedded_windows (trace m s) = [window]
       ∧ XMapWindow (xDisplay s) window ∈ trace m s
       ∧ XResizeWindow (xDisplay s) window
           (to_unsigned (width (mCurrentSize s)))
           (to_unsigned (height (mCurrentSize s))) ∈ trace m s
       ∧ Forall (λ c, is_XReparentWindow c = false) (trace m s)
       ∧ ∃ s', outcome m s = Returned true s'
               ∧ plugWindow s' = window
               ∧ plugParentWindow s' = plugParentWindow s).
Proof.
  split; [apply init_never_reparents|]. split.
  - intros steps s.
    destruct (run steps s) as [tr r] eqn:Hrun.
    unfold trace. rewrite Hrun. cbn.
    apply (run_invariant (λ _, True) (λ _, True)
             (λ c, is_XReparentWindow c = false)) with (steps := steps)
             (s := s) (r := r); try done.
    + intros W d s0 tr0 r0 _ _ Hstep. split; [|done].
      pose proof (step_never_reparents W d s0) as H.
      unfold trace in H. rewrite Hstep in H. exact H.
    + apply Forall_forall. done.
  - intros W s window data Hprop Hflag Hatom m. subst m.
    unfold trace, outcome.
    rewrite (handshake_run W s window data Hprop Hflag Hatom).
    unfold read_info, xembed_message, embedded.
    cbn -[to_unsigned XEmbedInfo_view].
    destruct (xEmbedInfoAtom s =? None_), (xEmbedAtom s =? None_);
      cbn -[to_unsigned XEmbedInfo_view];
      (repeat split;
       [ rewrite list_elem_of_In; cbn -[to_unsigned XEmbedInfo_view]; tauto
       | rewrite list_elem_of_In; cbn -[to_unsigned XEmbedInfo_view]; tauto
       | rewrite list_elem_of_In; cbn -[to_unsigned XEmbedInfo_view]; tauto
       | repeat constructor
       | eexists; repeat split ]).
Qed.

Lemma embedded_in_place_without_reparenting_witness :
  let m := handlePlugEvent sample_world (CreateNotify 34 40) in
  RunLoop_registerWindow 40 HandlePlugEvent ∈ trace m sample_window
  ∧ embedded_windows (trace m sample_window) = [40]
  ∧ XMapWindow 9 40 ∈ trace m sample_window
  ∧ XResizeWindow 9 40 640 480 ∈ trace m sample_window
  ∧ Forall (λ c, is_XReparentWindow c = false) (trace m sample_window)
  ∧ ∃ s', outcome m sample_window = Returned true s'
          ∧ plugWindow s' = 40
          ∧ plugParentWindow s' = 34.
Proof.
  apply (proj2 (proj2 embedded_in_place_without_reparenting)
           sample_world sample_window 40 (mkXPropertyData 1 [0])).
  - reflexivity.
  - reflexivity.
  - discriminate.
Defined.

(** C2 fails as stated: the plug-in creates window 40 under the plug parent
    34 and the handshake runs to its end, yet none of its requests is an
    XReparentWindow. *)
Lemma embedding_without_reparenting :
  outcome (handlePlugEvent sample_world (CreateNotify 34 40)) sample_window
  = Returned true sample_embedded
  ∧ existsb is_XReparentWindow
      (trace (handlePlugEvent sample_world (CreateNotify 34 40))
         sample_window)
    = false.
Proof. split; reflexivity. Qed.

(** ** Before the plug-in creates its window *)

Lemma step_before_embedding (pp0 : Window) W d s tr r :
  is_embedding_create pp0 d = false →
  plugWindow s = 0 ∧ xembedInfo s = None ∧ plugParentWindow s = pp0 →
  step W d s = (tr, r) →
  Forall (λ c, is_XSendEvent c = false) tr
  ∧ ∀ s', r = Returned () s' →
      plugWindow s' = 0 ∧ xembedInfo s' = None ∧ plugParentWindow s' = pp0.
Proof.
  destruct s as [c0 f0 dpy0 xi xw pp pw gc ia ea mp cur eh th].
  cbn. intros Hd (-> & -> & ->).
  step_cases d;
    try (cbn in Hd; rewrite Hd in *; discriminate);
    intros [= <- <-];
    (split; [repeat constructor|intros s' [= <-]; cbn; auto]).
Qed.

(** A window starts unembedded: [init] on a fresh object leaves
    [plugWindow] 0 and [xembedInfo] null, and sends nothing. *)
Lemma init_starts_unembedded W name size resizeable c dpy f tr b s :
  init W name size resizeable c dpy f Impl_new = (tr, Returned b s) →
  plugWindow s = 0 ∧ xembedInfo s = None
  ∧ Forall (λ c, is_XSendEvent c = false) tr.
Proof.
  unfold Impl_new, init.
  exec; intros [= <- <- <-]; repeat split; repeat constructor.
Qed.

(** C5: in every run, as long as no CreateNotify with parent
    [plugParentWindow] has been handled by the plug handler, [plugWindow]
    stays 0, [xembedInfo] stays null, and no XEmbed message is sent. *)
Theorem nothing_sent_before_creation (steps : list (World * dispatch))
    (s : Impl) :
  plugWindow s = 0 →
  xembedInfo s = None →
  Forall (λ wd, is_embedding_create (plugParentWindow s) wd.2 = false) steps →
  Forall (λ c, is_XSendEvent c = false) (trace (run steps) s)
  ∧ ∀ s', outcome (run steps) s = Returned () s' →
      plugWindow s' = 0 ∧ xembedInfo s' = None.
Proof.
  intros Hpw Hxi Hsteps.
  destruct (run steps s) as [tr r] eqn:Hrun.
  unfold trace, outcome. rewrite Hrun. cbn.
  destruct (run_invariant
              (λ s0, plugWindow s0 = 0 ∧ xembedInfo s0 = None
                     ∧ plugParentWindow s0 = plugParentWindow s)
              (λ wd, is_embedding_create (plugParentWindow s) wd.2 = false)
              (λ c, is_XSendEvent c = false)) with (steps := steps)
              (s := s) (tr := tr) (r := r) as [Hgood Hinv]; try done.
  - intros W d s0 tr0 r0 Hd Hinv0 Hstep.
    exact (step_before_embedding _ W d s0 tr0 r0 Hd Hinv0 Hstep).
  - split; [exact Hgood|]. intros s' Hs'.
    destruct (Hinv s' Hs') as (? & ? & _). done.
Qed.

Lemma nothing_sent_before_creation_witness :
  let steps :=
    [(sample_world, MainWindowEvent (MapNotify 12 12));
     (sample_world, MainWindowEvent (FocusIn 12));
     (sample_world, PlugEvent (CreateNotify 12 34));
     (sample_world, PlugEvent (ClientMessage 34 102 32 0 3 0 0 0));
     (sample_world, MainWindowEvent (FocusOut 12))] in
  Forall (λ c, is_XSendEvent c = false) (trace (run steps) sample_window)
  ∧ ∀ s', outcome (run steps) sample_window = Returned () s' →
      plugWindow s' = 0 ∧ xembedInfo s' = None.
Proof.
  apply (nothing_sent_before_creation _ sample_window).
  - reflexivity.
  - reflexivity.
  - repeat constructor.
Defined.

(** ** One plug window, created under the plug parent *)

Lemma embedded_windows_app tr1 tr2 :
  embedded_windows (tr1 ++ tr2) = embedded_windows tr1 ++ embedded_windows tr2.
Proof. apply omap_app. Qed.

(** What one step does to the embedding state: it either embeds nothing and
    leaves [plugWindow] and [xembedInfo] alone, or it is the plug handler
    receiving a CreateNotify under [plugParentWindow] and embeds the created
    window, which becomes [plugWindow]. *)
Lemma step_embeds W d s tr r :
  step W d s = (tr, r) →
  (∀ w, w ∈ embedded_windows tr →
        d = PlugEvent (CreateNotify (plugParentWindow s) w))
  ∧ ∀ s', r = Returned () s' →
      plugParentWindow s' = plugParentWindow s
      ∧ ((embedded_windows tr = [] ∧ plugWindow s' = plugWindow s
          ∧ xembedInfo s' = xembedInfo s)
         ∨ embedded_windows tr = [plugWindow s']).
Proof.
  destruct s as [c0 f0 dpy0 xi xw pp pw gc ia ea mp cur eh th].
  step_cases d; intros [= <- <-]; cbn;
    (split;
     [ intros w Hw;
       first [ by apply elem_of_nil in Hw
             | apply list_elem_of_singleton in Hw as ->;
               match goal with
               | H : negb (_ =? _) = false |- _ =>
                   apply negb_false_iff, Z.eqb_eq in H; subst; reflexivity
               end ]
     | intros s' [= <-]; cbn; auto ]).
Qed.

Lemma run_keeps_plugParentWindow steps s tr s' :
  run steps s = (tr, Returned () s') →
  plugParentWindow s' = plugParentWindow s.
Proof.
  revert s tr. induction steps as [|[W d] rest IH]; intros s tr Hrun.
  - injection Hrun as _ <-. reflexivity.
  - rewrite run_cons in Hrun.
    destruct (step W d s) as [tr1 [[] s1|why]] eqn:E1; [|discriminate].
    destruct (run rest s1) as [tr2 r2] eqn:E2.
    injection Hrun as _ ->.
    destruct (step_embeds W d s tr1 _ E1) as [_ Hs1].
    destruct (Hs1 s1 eq_refl) as [Hpp _].
    rewrite (IH s1 tr2 E2). exact Hpp.
Qed.

Lemma run_embeds_created steps s tr r w :
  run steps s = (tr, r) →
  w ∈ embedded_windows tr →
  ∃ W, (W, PlugEvent (CreateNotify (plugParentWindow s) w)) ∈ steps.
Proof.
  revert s tr r. induction steps as [|[W d] rest IH]; intros s tr r Hrun Hw.
  - injection Hrun as <- _. by apply elem_of_nil in Hw.
  - rewrite run_cons in Hrun.
    destruct (step W d s) as [tr1 r1] eqn:E1.
    destruct (step_embeds W d s tr1 r1 E1) as [Hnew Hs1].
    destruct r1 as [[] s1|why].
    + destruct (run rest s1) as [tr2 r2] eqn:E2.
      injection Hrun as <- _.
      rewrite embedded_windows_app in Hw.
      apply elem_of_app in Hw as [Hw|Hw].
      * exists W. rewrite <- (Hnew w Hw). left.
      * destruct (Hs1 s1 eq_refl) as [Hpp _].
        destruct (IH s1 tr2 r2 E2 Hw) as [W' HW'].
        exists W'. rewrite <- Hpp. right. exact HW'.
    + injection Hrun as <- _.
      exists W. rewrite <- (Hnew w Hw). left.
Qed.

Lemma run_holds_last_embedded steps s tr s' :
  run steps s = (tr, Returned () s') →
  match last (embedded_windows tr) with
  | Some w => plugWindow s' = w
  | None => plugWindow s' = plugWindow s ∧ xembedInfo s' = xembedInfo s
  end.
Proof.
  revert s tr. induction steps as [|[W d] rest IH]; intros s tr Hrun.
  - injection Hrun as <- <-. cbn. done.
  - rewrite run_cons in Hrun.
    destruct (step W d s) as [tr1 [[] s1|why]] eqn:E1; [|discriminate].
    destruct (run rest s1) as [tr2 r2] eqn:E2.
    injection Hrun as <- ->.
    destruct (step_embeds W d s tr1 _ E1) as [_ Hs1].
    destruct (Hs1 s1 eq_refl) as [_ Hstep].
    specialize (IH s1 tr2 E2).
    rewrite embedded_windows_app, last_app.
    destruct (last (embedded_windows tr2)) as [w|]; [exact IH|].
    destruct IH as [Hpw Hxi].
    destruct Hstep as [(-> & Hpw1 & Hxi1)| ->]; cbn.
    + split; congruence.
    + exact Hpw.
Qed.

(** C4, as the code has it: a CreateNotify whose parent is not
    [plugParentWindow] makes the plug handler return true and nothing else:
    no call is made and the object, with [plugWindow] and [xembedInfo], is
    unchanged.  So in every run the windows that are embedded are windows
    created under the one [plugParentWindow], which no step changes.  The
    object holds one plug window at a time: the last one embedded, or the
    one it had when none was.  How many windows are embedded one after the
    other is not bounded. *)
Theorem only_children_of_plug_parent_embedded :
  (∀ W s parent window,
     parent ≠ plugParentWindow s →
     handlePlugEvent W (CreateNotify parent window) s = ([], Returned true s))
  ∧ (∀ steps s w,
       w ∈ embedded_windows (trace (run steps) s) →
       ∃ W, (W, PlugEvent (CreateNotify (plugParentWindow s) w)) ∈ steps)
  ∧ (∀ steps s s',
       outcome (run steps) s = Returned () s' →
       plugParentWindow s' = plugParentWindow s
       ∧ match last (embedded_windows (trace (run steps) s)) with
         | Some w => plugWindow s' = w
         | None =>
             plugWindow s' = plugWindow s ∧ xembedInfo s' = xembedInfo s
         end).
Proof.
  split; [|split].
  - intros W s parent window Hne. apply Z.eqb_neq in Hne.
    destruct s as [c0 f0 dpy0 xi xw pp pw gc ia ea mp cur eh th].
    cbn in Hne. unfold handlePlugEvent. unfold_M. cbn. rewrite Hne.
    reflexivity.
  - intros steps s w. unfold trace.
    destruct (run steps s) as [tr r] eqn:Hrun. cbn.
    apply (run_embeds_created steps s tr r w Hrun).
  - intros steps s s'. unfold outcome, trace.
    destruct (run steps s) as [tr r] eqn:Hrun. cbn. intros ->.
    split.
    + exact (run_keeps_plugParentWindow _ _ _ _ Hrun).
    + exact (run_holds_last_embedded _ _ _ _ Hrun).
Qed.

Lemma only_children_of_plug_parent_embedded_witness :
  (12 : Z) ≠ plugParentWindow sample_window
  ∧ handlePlugEvent sample_world (CreateNotify 12 34) sample_window
    = ([], Returned true sample_window).
Proof.
  assert (H : (12 : Z) ≠ plugParentWindow sample_window) by discriminate.
  split; [exact H|].
  exact (proj1 only_children_of_plug_parent_embedded
           sample_world sample_window 12 34 H).
Defined.

(** C4 fails as stated: the plug-in creates the windows 40 and 41 under
    the plug parent 34, one after the other.  Both are registered, notified
    and mapped; the object then holds 41 as its plug window. *)
Lemma two_windows_embedded :
  let steps :=
    [(sample_world, PlugEvent (CreateNotify 34 40));
     (sample_world, PlugEvent (CreateNotify 34 41))] in
  embedded_windows (trace (run steps) sample_window) = [40; 41]
  ∧ RunLoop_registerWindow 40 HandlePlugEvent ∈ trace (run steps) sample_window
  ∧ RunLoop_registerWindow 41 HandlePlugEvent ∈ trace (run steps) sample_window
  ∧ XMapWindow 9 40 ∈ trace (run steps) sample_window
  ∧ XMapWindow 9 41 ∈ trace (run steps) sample_window
  ∧ ∃ s', outcome (run steps) sample_window = Returned () s'
          ∧ plugWindow s' = 41.
Proof.
  cbv zeta.
  split; [reflexivity|].
  do 4 (split; [rewrite list_elem_of_In; vm_compute; tauto|]).
  eexists. split; reflexivity.
Qed.

(** ** [onShow] once per shown period *)

Lemma show_once_app shown tr1 tr2 :
  show_once shown (tr1 ++ tr2)
  = show_once shown tr1 && show_once (shown_after shown tr1) tr2.
Proof.
  revert shown. induction tr1 as [|c tr1 IH]; intros shown; [reflexivity|].
  destruct c; cbn; rewrite ?IH; try reflexivity.
  apply andb_assoc.
Qed.

Lemma shown_after_app shown tr1 tr2 :
  shown_after shown (tr1 ++ tr2) = shown_after (shown_after shown tr1) tr2.
Proof.
  revert shown. induction tr1 as [|c tr1 IH]; intros shown; [reflexivity|].
  destruct c; cbn; rewrite ?IH; reflexivity.
Qed.

(** [isMapped] follows the calls: it is set with every [onShow] and cleared
    after every [onClose] of the controller. *)
Lemma step_shows W d s tr r :
  step W d s = (tr, r) →
  show_once (isMapped s) tr = true
  ∧ ∀ s', r = Returned () s' → isMapped s' = shown_after (isMapped s) tr.
Proof.
  destruct s as [c0 f0 dpy0 xi xw pp pw gc ia ea mp cur eh th].
  step_cases d; intros [= <- <-]; cbn;
    (split; [|intros s' [= <-]; reflexivity]);
    try reflexivity;
    match goal with
    | H : _ && negb ?m = true |- _ =>
        apply andb_true_iff in H as [_ H]; rewrite H; reflexivity
    end.
Qed.

Lemma run_shows steps s tr r :
  run steps s = (tr, r) →
  show_once (isMapped s) tr = true
  ∧ ∀ s', r = Returned () s' → isMapped s' = shown_after (isMapped s) tr.
Proof.
  revert s tr r. induction steps as [|[W d] rest IH]; intros s tr r Hrun.
  - injection Hrun as <- <-. split; [reflexivity|]. by intros s' [= <-].
  - rewrite run_cons in Hrun.
    destruct (step W d s) as [tr1 r1] eqn:E1.
    destruct (step_shows W d s tr1 r1 E1) as [Hok1 Hmap1].
    destruct r1 as [[] s1|why].
    + destruct (run rest s1) as [tr2 r2] eqn:E2.
      injection Hrun as <- <-.
      destruct (IH s1 tr2 r2 E2) as [Hok2 Hmap2].
      rewrite show_once_app, shown_after_app, Hok1,
        <- (Hmap1 s1 eq_refl), Hok2.
      split; [reflexivity|exact Hmap2].
    + injection Hrun as <- <-. split; [exact Hok1|]. intros s' [=].
Qed.

(** C10: a MapNotify of the main window calls [onShow] and sets [isMapped]
    only when [isMapped] is false, and does nothing otherwise; [onClose]
    resets [isMapped], after which a MapNotify of the main window calls
    [onShow] again.  So in every run no [onShow] follows another one without
    an [onClose] of the controller in between. *)
Theorem onShow_once_per_mapped_period :
  (∀ W s ev w,
     handleMainWindowEvent W (MapNotify ev w) s
     = if (ev =? xWindow s) && negb (isMapped s)
       then ([Controller_onShow], Returned true (set_isMapped true s))
       else ([], Returned false s))
  ∧ (∀ s, ∃ tr s',
       onClose s = (tr, Returned () s')
       ∧ isMapped s' = false
       ∧ ∀ W w,
           handleMainWindowEvent W (MapNotify (xWindow s') w) s'
           = ([Controller_onShow], Returned true (set_isMapped true s')))
  ∧ (∀ steps s, show_once (isMapped s) (trace (run steps) s) = true).
Proof.
  split; [|split].
  - intros W s ev w.
    destruct s as [c0 f0 dpy0 xi xw pp pw gc ia ea mp cur eh th].
    unfold handleMainWindowEvent. exec; reflexivity.
  - intros s.
    destruct s as [c0 f0 dpy0 xi xw pp pw gc ia ea mp cur eh th].
    unfold onClose, handleMainWindowEvent.
    exec; eexists _, _; (split; [reflexivity|]); split; reflexivity.
  - intros steps s. unfold trace.
    destruct (run steps s) as [tr r] eqn:Hrun.
    exact (proj1 (run_shows steps s tr r Hrun)).
Qed.

(** Two MapNotify events in a row show the window once. *)
Example MapNotify_twice :
  trace (run [(sample_world, MainWindowEvent (MapNotify 12 12));
              (sample_world, MainWindowEvent (MapNotify 12 12))])
    sample_window
  = [Controller_onShow].
Proof. reflexivity. Qed.

(** * Further properties of the code *)

(** Turns the conditions settled by [exec] into rewrites of the goal. *)
Ltac negb_hyps :=
  repeat match goal with
  | H : negb _ = true |- _ => apply negb_true_iff in H
  | H : negb _ = false |- _ => apply negb_false_iff in H
  end.

Ltac use_conds :=
  negb_hyps;
  repeat match goal with
  | H : ?c = true |- context [?c] => rewrite H
  | H : ?c = false |- context [?c] => rewrite H
  end.

(** ** Sizes *)

Lemma Size_eqb_eq (a b : Size) : Size_eqb a b = true ↔ a = b.
Proof.
  destruct a as [wa ha], b as [wb hb]. unfold Size_eqb. cbn.
  rewrite andb_true_iff, !Z.eqb_eq. split.
  - intros [-> ->]. reflexivity.
  - intros [= -> ->]. split; reflexivity.
Qed.

Lemma Size_eqb_refl (a : Size) : Size_eqb a a = true.
Proof. apply Size_eqb_eq. reflexivity. Qed.

Lemma resize_run (newSize : Size) (force : bool) (s : Impl) :
  resize newSize force s
  = (if negb force && Size_eqb (mCurrentSize s) newSize then []
     else resize_requests s newSize,
     Returned () (set_mCurrentSize newSize s)).
Proof.
  destruct s as [c0 f0 dpy0 xi xw pp pw gc ia ea mp cur eh th].
  unfold resize, resize_requests, set_mCurrentSize.
  destruct (negb force && Size_eqb cur newSize) eqn:Hskip.
  - pose proof Hskip as Heq.
    apply andb_true_iff in Heq as [_ Heq]. apply Size_eqb_eq in Heq.
    subst newSize. exec. reflexivity.
  - exec; use_conds; reflexivity.
Qed.

Lemma resize_requests_not_null (s : Impl) (newSize : Size) (w : Window) :
  Some w ∈ resized_window <$> resize_requests s newSize → w ≠ 0.
Proof.
  unfold resize_requests.
  destruct (xWindow s =? 0) eqn:Hxw, (plugParentWindow s =? 0) eqn:Hpp;
    cbn; intros Hw;
    repeat (apply elem_of_cons in Hw as [[= ->]|Hw]);
    try (by apply elem_of_nil in Hw);
    by apply Z.eqb_neq.
Qed.

(** X1: [resize] always returns with [mCurrentSize] equal to the new size and
    every other field as it was.  It sends nothing when it is not forced and
    the size is the current one; otherwise it resizes the main window and
    then the plug parent window, and never addresses the null XID. *)
Theorem resize_settles_size (newSize : Size) (force : bool) (s : Impl) :
  resize newSize force s
  = (if negb force && Size_eqb (mCurrentSize s) newSize then []
     else resize_requests s newSize,
     Returned () (set_mCurrentSize newSize s))
  ∧ ∀ w, Some w ∈ resized_window <$> trace (resize newSize force) s → w ≠ 0.
Proof.
  split; [apply resize_run|].
  unfold trace. rewrite resize_run. cbn.
  destruct (negb force && Size_eqb (mCurrentSize s) newSize).
  - intros w Hw. by apply elem_of_nil in Hw.
  - apply resize_requests_not_null.
Qed.

(** X2: an unforced [resize] to the size a [resize] has just set is a no-op:
    it adds no request and changes nothing. *)
Theorem resize_twice (newSize : Size) (force : bool) (s : Impl) :
  (resize newSize force;; resize newSize false) s = resize newSize force s.
Proof.
  pose proof (resize_run newSize false (set_mCurrentSize newSize s))
    as Hsecond.
  cbn in Hsecond. rewrite Size_eqb_refl in Hsecond. cbn in Hsecond.
  unfold mbind, M_MBind, M_bind. rewrite resize_run, Hsecond.
  rewrite app_nil_r. destruct s; reflexivity.
Qed.

(** X3: [checkSize] asks the server for the geometry of the main window and,
    when it differs from [mCurrentSize], forces the current size again; the
    object is unchanged in both cases. *)
Theorem checkSize_restores_size (W : World) (s : Impl) :
  checkSize W s
  = (XGetGeometry (xDisplay s) (xWindow s)
     :: (if Size_eqb (reply_XGetGeometry W (xWindow s)) (mCurrentSize s)
         then [] else resize_requests s (mCurrentSize s)),
     Returned () s).
Proof.
  destruct s as [c0 f0 dpy0 xi xw pp pw gc ia ea mp cur eh th].
  unfold checkSize, resize_requests.
  exec; use_conds; reflexivity.
Qed.

(** X4: a ConfigureNotify of the main window with a size other than
    [mCurrentSize] asks the controller to constrain it and leaves
    [mCurrentSize] at the constrained size, whatever the branch taken.  The
    controller's [onResize] is called exactly when the constrained size is
    not the current one; a constrained size other than the reported one is
    forced on both windows, otherwise the plug parent follows the main
    window.  With the current size the event is consumed and nothing
    happens.  No other field changes. *)
Theorem ConfigureNotify_settles_on_constrained_size (W : World) (s : Impl)
    (ev : Window) (w h : Z) :
  let size := mkSize w h in
  let cur := mCurrentSize s in
  let constraintSize := reply_constrainSize W size in
  handleMainWindowEvent W (ConfigureNotify ev (xWindow s) w h) s
  = (if Size_eqb cur size then []
     else
       Controller_constrainSize size
       :: (if Size_eqb constraintSize cur then []
           else [Controller_onResize size])
       ++ (if Size_eqb constraintSize size
           then (if plugParentWindow s =? 0 then []
                 else [XResizeWindow (xDisplay s) (plugParentWindow s)
                         (to_unsigned w) (to_unsigned h)])
           else resize_requests s constraintSize),
     Returned true
       (set_mCurrentSize (if Size_eqb cur size then cur else constraintSize)
          s)).
Proof.
  destruct s as [c0 f0 dpy0 xi xw pp pw gc ia ea mp cur eh th].
  unfold handleMainWindowEvent, resize_requests. unfold_M. cbn. rewrite Z.eqb_refl.
  exec; use_conds; cbn; try reflexivity;
    repeat match goal with
    | H : Size_eqb _ _ = true |- _ => apply Size_eqb_eq in H
    end;
    unfold set_mCurrentSize; cbn; congruence.
Qed.

(** X5: a ResizeRequest of the main window with a size other than
    [mCurrentSize] asks the controller to constrain it and forces the
    constrained size on both windows; unlike ConfigureNotify it never calls
    [onResize].  [mCurrentSize] ends at the constrained size, no other field
    changes, and the event is consumed. *)
Theorem ResizeRequest_forces_constrained_size (W : World) (s : Impl)
    (w h : Z) :
  let request := mkSize w h in
  let cur := mCurrentSize s in
  let constraintSize := reply_constrainSize W request in
  handleMainWindowEvent W (ResizeRequest (xWindow s) w h) s
  = (if Size_eqb cur request then []
     else Controller_constrainSize request
          :: resize_requests s constraintSize,
     Returned true
       (set_mCurrentSize
          (if Size_eqb cur request then cur else constraintSize) s)).
Proof.
  destruct s as [c0 f0 dpy0 xi xw pp pw gc ia ea mp cur eh th].
  unfold handleMainWindowEvent, resize_requests. unfold_M. cbn.
  rewrite Z.eqb_refl.
  exec; use_conds; cbn; reflexivity.
Qed.

(** ** Closing *)

(** X6: an UnmapNotify of the main window and every ClientMessage addressed
    to it, whatever its message type and data, close the window in the same
    way: the controller is told, the graphic context is freed and the window
    destroyed on the display the object still holds, then the display and
    the window are forgotten, [isMapped] is reset, and the close callback is
    called when there is one. *)
Theorem UnmapNotify_and_ClientMessage_close (W : World) (s : Impl)
    (ev : Window) (message_type : Atom) (format l0 l1 l2 l3 l4 : Z) :
  handleMainWindowEvent W (UnmapNotify ev (xWindow s)) s
  = (close_calls s, Returned true (closed s))
  ∧ handleMainWindowEvent W
      (ClientMessage (xWindow s) message_type format l0 l1 l2 l3 l4) s
    = (close_calls s, Returned true (closed s)).
Proof.
  destruct s as [c0 f0 dpy0 xi xw pp pw gc ia ea mp cur eh th].
  unfold handleMainWindowEvent, close_calls, closed. unfold_M. cbn.
  rewrite Z.eqb_refl. destruct f0; split; reflexivity.
Qed.

(** X7: once the window is closed, the structure events still on their way
    to the old main window are not consumed and do nothing: the controller
    is not told a second time. *)
Theorem events_of_closed_window_ignored (W : World) (s : Impl)
    (x : Window) (w h : Z) (message_type : Atom) (format l0 l1 l2 l3 l4 : Z) :
  xWindow s ≠ 0 →
  let old := xWindow s in
  let ignored e :=
    handleMainWindowEvent W e (closed s) = ([], Returned false (closed s)) in
  ignored (MapNotify old x)
  ∧ ignored (UnmapNotify x old)
  ∧ ignored (ClientMessage old message_type format l0 l1 l2 l3 l4)
  ∧ ignored (ConfigureNotify x old w h)
  ∧ ignored (ResizeRequest old w h).
Proof.
  destruct s as [c0 f0 dpy0 xi xw pp pw gc ia ea mp cur eh th].
  cbn. intros Hxw. apply Z.eqb_neq in Hxw.
  unfold handleMainWindowEvent, closed. unfold_M. cbn. rewrite Hxw. cbn.
  repeat split; reflexivity.
Qed.

Lemma events_of_closed_window_ignored_witness :
  xWindow sample_window ≠ 0
  ∧ handleMainWindowEvent sample_world (UnmapNotify 12 12)
      (closed sample_window)
    = ([], Returned false (closed sample_window)).
Proof.
  assert (H : xWindow sample_window ≠ 0) by discriminate.
  split; [exact H|].
  exact (proj1 (proj2 (events_of_closed_window_ignored sample_world
                         sample_window 12 0 0 0 0 0 0 0 0 0 H))).
Defined.

(** X8: MapNotify is matched on the window the event is reported to,
    UnmapNotify on the window that was unmapped.  So a MapNotify that the
    main window receives about a child shows the window like its own, while
    an UnmapNotify about a child does not close it. *)
Theorem child_MapNotify_shows_child_UnmapNotify_ignored (W : World)
    (s : Impl) (child : Window) :
  isMapped s = false →
  child ≠ xWindow s →
  handleMainWindowEvent W (MapNotify (xWindow s) child) s
  = ([Controller_onShow], Returned true (set_isMapped true s))
  ∧ handleMainWindowEvent W (UnmapNotify (xWindow s) child) s
    = ([], Returned false s).
Proof.
  destruct s as [c0 f0 dpy0 xi xw pp pw gc ia ea mp cur eh th].
  cbn. intros -> Hchild. apply Z.eqb_neq in Hchild.
  unfold handleMainWindowEvent. unfold_M. cbn.
  rewrite Z.eqb_refl, Hchild. split; reflexivity.
Qed.

Lemma child_MapNotify_shows_child_UnmapNotify_ignored_witness :
  handleMainWindowEvent sample_world (MapNotify 12 34) sample_window
  = ([Controller_onShow], Returned true (set_isMapped true sample_window))
  ∧ handleMainWindowEvent sample_world (UnmapNotify 12 34) sample_window
    = ([], Returned false sample_window).
Proof.
  apply (child_MapNotify_shows_child_UnmapNotify_ignored sample_world
           sample_window 34).
  - reflexivity.
  - discriminate.
Defined.

(** ** What each handler touches *)


(** X10: when the plug handler returns, the main window's fields
    (controller, close callback, display, window, graphic context,
    [isMapped], [mCurrentSize]), the plug parent and the registered handlers
    are as before; the result is true exactly for a CreateNotify, and every
    other event leaves the whole object unchanged. *)
Theorem handlePlugEvent_keeps_main_window (W : World) (e : XEvent)
    (s : Impl) (tr : list call) (res : bool) (s' : Impl) :
  handlePlugEvent W e s = (tr, Returned res s') →
  same_main_window s s'
  ∧ same_registrations s s'
  ∧ plugParentWindow s' = plugParentWindow s
  ∧ res = is_CreateNotify e
  ∧ (is_CreateNotify e = false → s' = s).
Proof.
  destruct s as [c0 f0 dpy0 xi xw pp pw gc ia ea mp cur eh th].
  unfold same_main_window, same_registrations.
  destruct e; unfold handlePlugEvent, getXEmbedInfo; exec;
    intros [= <- <- <-]; cbn; repeat split; done.
Qed.

Lemma handlePlugEvent_keeps_main_window_witness :
  same_main_window sample_window sample_embedded
  ∧ same_registrations sample_window sample_embedded
  ∧ plugParentWindow sample_embedded = plugParentWindow sample_window
  ∧ true = is_CreateNotify (CreateNotify 34 40)
  ∧ (is_CreateNotify (CreateNotify 34 40) = false →
     sample_embedded = sample_window).
Proof.
  exact (handlePlugEvent_keeps_main_window sample_world (CreateNotify 34 40)
           sample_window _ true sample_embedded embed_sample_window).
Defined.

(** ** Where the process can end *)



(** ** What goes over the wire *)

Lemma step_sends_xembed_only W d s tr r :
  step W d s = (tr, r) →
  Forall (λ c, is_xembed_message (plugParentWindow s) c = true) tr
  ∧ ∀ s', r = Returned () s' → plugParentWindow s' = plugParentWindow s.
Proof.
  destruct s as [c0 f0 dpy0 xi xw pp pw gc ia ea mp cur eh th].
  step_cases d; intros [= <- <-];
    (split; [|by intros s' [= <-]]);
    repeat constructor; cbn; rewrite ?Z.eqb_refl; reflexivity.
Qed.

(** X12: in every run, each event the object sends is an XEmbed message in
    due form: a 32 bit ClientMessage to the window it is sent to, not
    propagated and without event mask, stamped [CurrentTime], with detail 0
    and [plugParentWindow] as the embedder.  Its opcode is
    XEMBED_EMBEDDED_NOTIFY, XEMBED_WINDOW_ACTIVATE, XEMBED_WINDOW_DEACTIVATE
    or XEMBED_FOCUS_IN: the module never sends XEMBED_FOCUS_OUT or any
    other opcode. *)
Theorem only_xembed_messages_sent (steps : list (World * dispatch))
    (s : Impl) :
  Forall (λ c, is_xembed_message (plugParentWindow s) c = true)
    (trace (run steps) s).
Proof.
  destruct (run steps s) as [tr r] eqn:Hrun.
  unfold trace. rewrite Hrun. cbn.
  apply (run_invariant
           (λ s0, plugParentWindow s0 = plugParentWindow s) (λ _, True)
           (λ c, is_xembed_message (plugParentWindow s) c = true))
    with (steps := steps) (s := s) (r := r); try done.
  - intros W d s0 tr0 r0 _ Hpp Hstep.
    destruct (step_sends_xembed_only W d s0 tr0 r0 Hstep) as [Hgood Hkeep].
    rewrite Hpp in Hgood, Hkeep. split; [exact Hgood|exact Hkeep].
  - apply Forall_forall. done.
Qed.

Lemma sends_synced_app tr1 tr2 :
  sends_synced tr1 = true → sends_synced tr2 = true →
  sends_synced (tr1 ++ tr2) = true.
Proof.
  intros H1 H2. induction tr1 as [|c tr1 IH]; [exact H2|].
  destruct c; cbn in *; try (apply IH; exact H1).
  destruct tr1 as [|c' tr1]; [discriminate|].
  destruct c'; try discriminate. cbn.
  destruct discard; [discriminate|].
  apply andb_true_iff in H1 as [Hdpy Hrest].
  rewrite Hdpy. cbn. apply IH. exact Hrest.
Qed.

Lemma step_syncs_sends W d s :
  sends_synced (trace (step W d) s) = true.
Proof.
  destruct s as [c0 f0 dpy0 xi xw pp pw gc ia ea mp cur eh th].
  unfold trace.
  step_cases d; cbn; rewrite ?Z.eqb_refl; reflexivity.
Qed.

(** X13: in every run, each event sent is followed at once by an [XSync] of
    the same display that keeps the queued events: no other request of the
    object comes between a message and its synchronisation. *)
Theorem every_send_synced (steps : list (World * dispatch)) (s : Impl) :
  sends_synced (trace (run steps) s) = true.
Proof.
  revert s. induction steps as [|[W d] rest IH]; intros s; [reflexivity|].
  unfold trace. rewrite run_cons.
  pose proof (step_syncs_sends W d s) as Hstep. unfold trace in Hstep.
  destruct (step W d s) as [tr1 [[] s1|why]]; cbn in *; [|exact Hstep].
  specialize (IH s1). unfold trace in IH.
  destruct (run rest s1) as [tr2 r2]. cbn in *.
  apply sends_synced_app; assumption.
Qed.

(** ** Atoms *)

Lemma step_keeps_atoms W d s tr r :
  xEmbedInfoAtom s ≠ None_ → xEmbedAtom s ≠ None_ →
  step W d s = (tr, r) →
  Forall (λ c, is_XInternAtom c = false) tr
  ∧ ∀ s', r = Returned () s' →
      xEmbedInfoAtom s' = xEmbedInfoAtom s ∧ xEmbedAtom s' = xEmbedAtom s.
Proof.
  destruct s as [c0 f0 dpy0 xi xw pp pw gc ia ea mp cur eh th].
  cbn. intros Hia Hea. apply Z.eqb_neq in Hia, Hea.
  step_cases d; intros [= <- <-];
    (split; [repeat constructor|by intros s' [= <-]]).
Qed.

(** X14: the atoms are interned once.  From an object that holds both the
    _XEMBED_INFO and the _XEMBED atom, no run asks the server for an atom
    again, and both stored atoms stay what they are. *)
Theorem atoms_interned_once (steps : list (World * dispatch)) (s : Impl) :
  xEmbedInfoAtom s ≠ None_ →
  xEmbedAtom s ≠ None_ →
  Forall (λ c, is_XInternAtom c = false) (trace (run steps) s)
  ∧ ∀ s', outcome (run steps) s = Returned () s' →
      xEmbedInfoAtom s' = xEmbedInfoAtom s ∧ xEmbedAtom s' = xEmbedAtom s.
Proof.
  intros Hia Hea.
  destruct (run steps s) as [tr r] eqn:Hrun.
  unfold trace, outcome. rewrite Hrun. cbn.
  apply (run_invariant
           (λ s0, xEmbedInfoAtom s0 = xEmbedInfoAtom s
                  ∧ xEmbedAtom s0 = xEmbedAtom s)
           (λ _, True) (λ c, is_XInternAtom c = false))
    with (steps := steps) (s := s) (r := r); try done.
  - intros W d s0 tr0 r0 _ [Hia0 Hea0] Hstep.
    rewrite <- Hia0 in Hia. rewrite <- Hea0 in Hea.
    destruct (step_keeps_atoms W d s0 tr0 r0 Hia Hea Hstep) as [Hgood Hkeep].
    split; [exact Hgood|]. intros s' Hs'.
    destruct (Hkeep s' Hs') as [-> ->]. done.
  - apply Forall_forall. done.
Qed.

Lemma atoms_interned_once_witness :
  let steps :=
    [(sample_world, PlugEvent (CreateNotify 34 41));
     (sample_world, MainWindowEvent (FocusIn 12))] in
  Forall (λ c, is_XInternAtom c = false) (trace (run steps) sample_embedded)
  ∧ ∀ s', outcome (run steps) sample_embedded = Returned () s' →
      xEmbedInfoAtom s' = xEmbedInfoAtom sample_embedded
      ∧ xEmbedAtom s' = xEmbedAtom sample_embedded.
Proof.
  apply (atoms_interned_once _ sample_embedded); discriminate.
Defined.

(** ** Registering and unregistering *)

Lemma find_handler_unique W (m : gmap Z Z) (h k : Z) :
  iterates_entries W →
  m !! k = Some h →
  (∀ k', m !! k' = Some h → k' = k) →
  find_handler h (unordered_map_order W m) = Some (k, h).
Proof.
  intros Horder Hk Huniq.
  destruct (find_handler h (unordered_map_order W m)) as [[k' h']|] eqn:E.
  - apply find_handler_Some in E as [Hin ->].
    apply (iterates_entries_lookup W _ _ _ Horder) in Hin.
    rewrite (Huniq k' Hin). reflexivity.
  - apply (iterates_entries_lookup W _ _ _ Horder) in Hk.
    destruct (find_handler_None _ _ E k Hk).
Qed.

Lemma find_handler_absent W (m : gmap Z Z) (h : Z) :
  iterates_entries W →
  (∀ k, m !! k ≠ Some h) →
  find_handler h (unordered_map_order W m) = None.
Proof.
  intros Horder Hnone.
  destruct (find_handler h (unordered_map_order W m)) as [[k' h']|] eqn:E;
    [|reflexivity].
  apply find_handler_Some in E as [Hin ->].
  apply (iterates_entries_lookup W _ _ _ Horder) in Hin.
  destruct (Hnone k' Hin).
Qed.

Lemma insert_only_entry (m : gmap Z Z) (h k : Z) :
  (∀ k', m !! k' ≠ Some h) →
  ∀ k', <[k := h]> m !! k' = Some h → k' = k.
Proof.
  intros Hnone k' Hk'. apply lookup_insert_Some in Hk' as [[-> _]|[_ Hk']].
  - reflexivity.
  - destruct (Hnone k' Hk').
Qed.

(** X15: registering a handler for a free descriptor and unregistering it
    again brings the object back to where it was: the run loop is told to
    watch and then to forget that descriptor, kResultTrue is returned, and
    the handler map is the one before.  This holds for a handler that has no
    other entry, whatever the iteration order of the map. *)
Theorem register_unregister_event_handler (W : World) (s : Impl)
    (handler : Pointer) (fd : FileDescriptor) :
  iterates_entries W →
  handler ≠ nullptr →
  eventHandlers s !! fd = None →
  (∀ k, eventHandlers s !! k ≠ Some handler) →
  (registerEventHandler handler fd;; unregisterEventHandler W handler) s
  = ([RunLoop_registerFileDescriptor fd handler;
      RunLoop_unregisterFileDescriptor fd],
     Returned kResultTrue s).
Proof.
  intros Horder Hnull Hfree Hnone. apply Z.eqb_neq in Hnull.
  destruct s as [c0 f0 dpy0 xi xw pp pw gc ia ea mp cur eh th].
  cbn in Hfree, Hnone.
  unfold registerEventHandler, unregisterEventHandler. unfold_M.
  cbn -[emplace lookup insert delete]. rewrite Hnull, Hfree.
  cbn -[emplace lookup insert delete].
  rewrite (emplace_fresh _ _ _ Hfree).
  rewrite (find_handler_unique W (<[fd := handler]> eh) handler fd Horder
             (lookup_insert_eq _ _ _) (insert_only_entry _ _ _ Hnone)).
  cbn -[lookup insert delete]. unfold set_eventHandlers.
  cbn -[lookup insert delete].
  rewrite (delete_insert_id _ _ _ Hfree). reflexivity.
Qed.

Lemma register_unregister_event_handler_witness :
  (registerEventHandler 77 3;; unregisterEventHandler sample_world 77)
    sample_window
  = ([RunLoop_registerFileDescriptor 3 77; RunLoop_unregisterFileDescriptor 3],
     Returned kResultTrue sample_window).
Proof.
  apply (register_unregister_event_handler sample_world sample_window 77 3).
  - exact sample_world_iterates.
  - discriminate.
  - reflexivity.
  - intros k H. cbn in H. rewrite lookup_empty in H. discriminate H.
Defined.

(** X16: the same round trip for timers: when the id the run loop hands out
    is not in use and the handler has no other entry, [registerTimer]
    followed by [unregisterTimer] registers and unregisters that id with
    the run loop, returns kResultTrue and leaves the object as it was. *)
Theorem register_unregister_timer (W W' : World) (s : Impl)
    (handler : Pointer) (milliseconds : TimerInterval) :
  iterates_entries W' →
  handler ≠ nullptr →
  milliseconds ≠ 0 →
  timerHandlers s !! reply_registerTimer W = None →
  (∀ k, timerHandlers s !! k ≠ Some handler) →
  (registerTimer W handler milliseconds;; unregisterTimer W' handler) s
  = ([RunLoop_registerTimer milliseconds handler;
      RunLoop_unregisterTimer (reply_registerTimer W)],
     Returned kResultTrue s).
Proof.
  intros Horder Hnull Hms Hfree Hnone.
  apply Z.eqb_neq in Hnull. apply Z.eqb_neq in Hms.
  destruct s as [c0 f0 dpy0 xi xw pp pw gc ia ea mp cur eh th].
  cbn in Hfree, Hnone.
  unfold registerTimer, unregisterTimer. unfold_M.
  cbn -[emplace lookup insert delete]. rewrite Hnull, Hms.
  cbn -[emplace lookup insert delete].
  rewrite (emplace_fresh _ _ _ Hfree).
  rewrite (find_handler_unique W' (<[reply_registerTimer W := handler]> th)
             handler (reply_registerTimer W) Horder
             (lookup_insert_eq _ _ _) (insert_only_entry _ _ _ Hnone)).
  cbn -[lookup insert delete]. unfold set_timerHandlers.
  cbn -[lookup insert delete].
  rewrite (delete_insert_id _ _ _ Hfree). reflexivity.
Qed.

Lemma register_unregister_timer_witness :
  (registerTimer sample_world 77 20;; unregisterTimer sample_world 77)
    sample_window
  = ([RunLoop_registerTimer 20 77; RunLoop_unregisterTimer 1],
     Returned kResultTrue sample_window).
Proof.
  apply (register_unregister_timer sample_world sample_world sample_window
           77 20).
  - exact sample_world_iterates.
  - discriminate.
  - discriminate.
  - reflexivity.
  - intros k H. cbn in H. rewrite lookup_empty in H. discriminate H.
Defined.

(** X17: when the id the run loop hands out for a new timer is already in
    the timer map, [registerTimer] still registers the timer with the run
    loop and returns kResultTrue, but the map keeps its old entry and the
    object is unchanged; the new handler, having no entry, cannot be
    unregistered: [unregisterTimer] answers kNotImplemented and the run
    loop is not told. *)
Theorem registerTimer_id_in_use (W W' : World) (s : Impl)
    (handler other : Pointer) (milliseconds : TimerInterval) :
  iterates_entries W' →
  handler ≠ nullptr →
  milliseconds ≠ 0 →
  timerHandlers s !! reply_registerTimer W = Some other →
  (∀ k, timerHandlers s !! k ≠ Some handler) →
  registerTimer W handler milliseconds s
  = ([RunLoop_registerTimer milliseconds handler], Returned kResultTrue s)
  ∧ (registerTimer W handler milliseconds;; unregisterTimer W' handler) s
    = ([RunLoop_registerTimer milliseconds handler],
       Returned kNotImplemented s).
Proof.
  intros Horder Hnull Hms Hused Hnone.
  apply Z.eqb_neq in Hnull. apply Z.eqb_neq in Hms.
  destruct s as [c0 f0 dpy0 xi xw pp pw gc ia ea mp cur eh th].
  cbn in Hused, Hnone.
  unfold registerTimer, unregisterTimer. unfold_M.
  cbn -[emplace lookup insert delete]. rewrite Hnull, Hms.
  cbn -[emplace lookup insert delete].
  unfold emplace. rewrite Hused.
  rewrite (find_handler_absent W' th handler Horder Hnone).
  split; reflexivity.
Qed.

Lemma registerTimer_id_in_use_witness :
  let s := set_timerHandlers {[1 := 55]} sample_window in
  registerTimer sample_world 77 20 s
  = ([RunLoop_registerTimer 20 77], Returned kResultTrue s)
  ∧ (registerTimer sample_world 77 20;; unregisterTimer sample_world 77) s
    = ([RunLoop_registerTimer 20 77], Returned kNotImplemented s).
Proof.
  apply (registerTimer_id_in_use sample_world sample_world
           (set_timerHandlers {[1 := 55]} sample_window) 77 55 20).
  - exact sample_world_iterates.
  - discriminate.
  - discriminate.
  - reflexivity.
  - intros k H. cbn in H. apply lookup_singleton_Some in H as [_ H].
    discriminate H.
Defined.

(** X18: a descriptor keeps its first handler: after a handler was
    registered for a free descriptor, registering any handler for the same
    descriptor is refused with kInvalidArgument, the run loop is not told,
    and the descriptor still belongs to the first handler. *)
Theorem descriptor_keeps_first_handler (s : Impl)
    (first second : Pointer) (fd : FileDescriptor) :
  first ≠ nullptr →
  eventHandlers s !! fd = None →
  (registerEventHandler first fd;; registerEventHandler second fd) s
  = ([RunLoop_registerFileDescriptor fd first],
     Returned kInvalidArgument
       (set_eventHandlers (<[fd := first]> (eventHandlers s)) s)).
Proof.
  intros Hnull Hfree. apply Z.eqb_neq in Hnull.
  destruct s as [c0 f0 dpy0 xi xw pp pw gc ia ea mp cur eh th].
  cbn in Hfree.
  unfold registerEventHandler. unfold_M.
  cbn -[emplace lookup insert delete]. rewrite Hnull, Hfree.
  cbn -[emplace lookup insert delete].
  rewrite (emplace_fresh _ _ _ Hfree), lookup_insert_eq.
  rewrite bool_decide_eq_true_2 by eauto.
  rewrite orb_true_r. reflexivity.
Qed.

Lemma descriptor_keeps_first_handler_witness :
  (registerEventHandler 77 3;; registerEventHandler 78 3) sample_window
  = ([RunLoop_registerFileDescriptor 3 77],
     Returned kInvalidArgument
       (set_eventHandlers (<[3 := 77]> (eventHandlers sample_window))
          sample_window)).
Proof.
  apply (descriptor_keeps_first_handler sample_window 77 78 3).
  - discriminate.
  - reflexivity.
Defined.

(** ** Invariants of the objects a process can hold *)

Lemma init_keeps_registrations W name size resizeable c dpy f s tr b s' :
  init W name size resizeable c dpy f s = (tr, Returned b s') →
  same_registrations s s'.
Proof.
  destruct s as [c0 f0 dpy0 xi xw pp pw gc ia ea mp cur eh th].
  unfold init, same_registrations.
  exec; intros [= <- <- <-]; cbn; done.
Qed.

Lemma step_keeps_info_unmapped W d s tr s' :
  step W d s = (tr, Returned () s') →
  info_unmapped s → info_unmapped s'.
Proof.
  destruct s as [c0 f0 dpy0 xi xw pp pw gc ia ea mp cur eh th].
  unfold info_unmapped.
  step_cases d; intros [= <- <-] Hinv; cbn in *; try exact Hinv;
    intros info [= <-]; negb_hyps;
    match goal with
    | H : (Z.land _ _ =? 0) = true |- _ => apply Z.eqb_eq in H; exact H
    end.
Qed.

Lemma XEmbedInfo_view_small (first : Z) (rest : list Z) :
  0 ≤ first < 2 ^ 31 →
  XEmbedInfo_view (mkXPropertyData first rest) = mkXEmbedInfo first 0.
Proof.
  intros Hfirst. unfold XEmbedInfo_view. cbn [first_long].
  rewrite Z.shiftr_div_pow2 by lia.
  rewrite (Z.div_small first (2 ^ 32)) by lia.
  rewrite Z.land_0_l, Z.land_ones by lia.
  rewrite Z.mod_small by lia. reflexivity.
Qed.

(** X19: the XEMBED_MAPPED guard tests the [flags] field of the buffer taken
    as an [XEmbedInfo], which is the upper half of the first long.  No
    object a process can hold keeps an [xembedInfo] with that bit set.  For
    a buffer whose first long is a version below 2^31 the field is 0
    whatever the other longs hold: the second long, where the flags item of
    the property lies, is never looked at, and the handshake is carried out
    for every such property, also one that carries XEMBED_MAPPED there. *)
Theorem mapped_guard_tests_first_long :
  (∀ s info,
     reachable s →
     xembedInfo s = Some info →
     Z.land (flags info) XEMBED_MAPPED = 0)
  ∧ (∀ W s window first rest,
       0 ≤ first < 2 ^ 31 →
       reply_XGetWindowProperty W window (info_atom W s)
       = (Success, Some (mkXPropertyData first rest)) →
       embed_atom W s ≠ None_ →
       XEmbedInfo_view (mkXPropertyData first rest) = mkXEmbedInfo first 0
       ∧ outcome
           (handlePlugEvent W (CreateNotify (plugParentWindow s) window)) s
         = Returned true (embedded W s window (mkXEmbedInfo first 0))).
Proof.
  split.
  - intros s info Hreach. revert info. change (info_unmapped s).
    induction Hreach as [|W name size resizeable c dpy f s tr b s' _ IH Hinit
                         |W d s tr s' _ IH Hstep].
    + intros info [=].
    + destruct (init_keeps_embedding _ _ _ _ _ _ _ _ _ _ _ Hinit)
        as (_ & Hi & _).
      unfold info_unmapped. rewrite Hi. exact IH.
    + eapply step_keeps_info_unmapped; eassumption.
  - intros W s window first rest Hfirst Hprop Hatom.
    pose proof (XEmbedInfo_view_small first rest Hfirst) as Hview.
    split; [exact Hview|].
    unfold outcome. rewrite (handshake_run W s window _ Hprop).
    + rewrite Hview. reflexivity.
    + rewrite Hview. reflexivity.
    + exact Hatom.
Qed.

Lemma mapped_guard_tests_first_long_witness :
  XEmbedInfo_view (mkXPropertyData 1 [XEMBED_MAPPED]) = mkXEmbedInfo 1 0
  ∧ outcome
      (handlePlugEvent world_with_mapped_flag (CreateNotify 34 40))
      sample_window
    = Returned true sample_embedded.
Proof.
  apply (proj2 mapped_guard_tests_first_long world_with_mapped_flag
           sample_window 40 1 [XEMBED_MAPPED]).
  - lia.
  - reflexivity.
  - discriminate.
Defined.

Lemma emplace_keeps_non_null (m : gmap Z Z) (k h : Z) :
  h ≠ nullptr →
  (∀ k', m !! k' ≠ Some nullptr) →
  ∀ k', emplace k h m !! k' ≠ Some nullptr.
Proof.
  intros Hh Hm k'. unfold emplace.
  destruct (m !! k) eqn:E; [apply Hm|].
  rewrite lookup_insert_Some. intros [[_ ->]|[_ H]]; [done|].
  exact (Hm k' H).
Qed.

Lemma delete_keeps_non_null (m : gmap Z Z) (k : Z) :
  (∀ k', m !! k' ≠ Some nullptr) →
  ∀ k', delete k m !! k' ≠ Some nullptr.
Proof.
  intros Hm k'. rewrite lookup_delete_Some. intros [_ H]. exact (Hm k' H).
Qed.

Lemma step_keeps_no_null_handler W d s tr s' :
  step W d s = (tr, Returned () s') →
  no_null_handler s → no_null_handler s'.
Proof.
  destruct s as [c0 f0 dpy0 xi xw pp pw gc ia ea mp cur eh th].
  unfold no_null_handler.
  step_cases d; intros [= <- <-] [Hev Hti]; cbn -[emplace] in *;
    try (split; assumption);
    repeat match goal with
    | H : _ || _ = false |- _ => apply orb_false_iff in H as [H _]
    | H : (_ =? nullptr) = false |- _ => apply Z.eqb_neq in H
    | H : (_ =? 0) = false |- _ => apply Z.eqb_neq in H
    end;
    split;
    first [ assumption
          | by apply emplace_keeps_non_null
          | by apply delete_keeps_non_null ].
Qed.

(** X20: no object a process can hold has a null handler in its descriptor
    map or in its timer map: whatever is registered can be called. *)
Theorem no_null_handler_registered (s : Impl) :
  reachable s → no_null_handler s.
Proof.
  induction 1 as [|W name size resizeable c dpy f s tr b s' _ IH Hinit
                  |W d s tr s' _ IH Hstep].
  - split; intros k; cbn; rewrite lookup_empty; discriminate.
  - destruct (init_keeps_registrations _ _ _ _ _ _ _ _ _ _ _ Hinit)
      as [Hev Hti].
    unfold no_null_handler. rewrite Hev, Hti. exact IH.
  - eapply step_keeps_no_null_handler; eassumption.
Qed.

Lemma no_null_handler_registered_witness : no_null_handler sample_embedded.
Proof.
  apply (no_null_handler_registered sample_embedded).
  exact sample_embedded_reachable.
Defined.

(** ** More on [init] *)

(** X21: an [init] that does not return true has built nothing: whether it
    returns false or ends the process, it has created no colormap, window or
    graphic context, mapped no window and registered no window with the run
    loop. *)
Theorem failed_init_builds_nothing (W : World) (name : string) (size : Size)
    (resizeable : bool) (c : Pointer) (dpy : Display) (f : bool) (s : Impl) :
  (∀ s', outcome (init W name size resizeable c dpy f) s ≠ Returned true s') →
  Forall (λ c, builds c = false) (trace (init W name size resizeable c dpy f) s).
Proof.
  destruct s as [c0 f0 dpy0 xi xw pp pw gc ia ea mp cur eh th].
  unfold init, outcome, trace.
  exec; intros Hfail; try (repeat constructor);
    exfalso; eapply Hfail; reflexivity.
Qed.

Lemma failed_init_builds_nothing_witness :
  Forall (λ c, builds c = false)
    (trace (init world_without_visual "kodo" (mkSize 640 480) false 8 9 true)
       Impl_new).
Proof.
  apply failed_init_builds_nothing.
  intros s' H. vm_compute in H. discriminate H.
Defined.

(** X22: what a successful [init] leaves.  With the _XEMBED_INFO atom and a
    24 bit TrueColor visual on the display, [init] returns true with the
    controller, the close callback, the display, the new windows, the new
    graphic context and the atom stored, and [mCurrentSize] equal to the
    size asked for; the plug window, [xembedInfo], the _XEMBED atom,
    [isMapped] and the registered handlers are what they were.  The only
    window it maps is the plug parent: the main window stays unmapped. *)
Theorem init_postcondition (W : World) (name : string) (size : Size)
    (resizeable : bool) (c : Pointer) (dpy : Display) (f : bool) (s : Impl)
    (vInfo : XVisualInfo) :
  reply_XInternAtom W "_XEMBED_INFO" true ≠ None_ →
  reply_XMatchVisualInfo W = Some vInfo →
  let xw := reply_XCreateWindow W (reply_RootWindow W) in
  let pp := reply_XCreateWindow W xw in
  ∃ tr,
    init W name size resizeable c dpy f s
    = (tr,
       Returned true
         (mkImpl c f dpy (xembedInfo s) xw pp (plugWindow s)
            (reply_XCreateGC W) (reply_XInternAtom W "_XEMBED_INFO" true)
            (xEmbedAtom s) (isMapped s) size (eventHandlers s)
            (timerHandlers s)))
    ∧ omap mapped_window tr = [pp].
Proof.
  intros Hatom Hvis. apply Z.eqb_neq in Hatom.
  destruct s as [c0 f0 dpy0 xi xw0 pp0 pw gc ia ea mp cur eh th].
  unfold init.
  exec; eexists; split; reflexivity.
Qed.

Lemma init_postcondition_witness :
  ∃ tr,
    init sample_world "kodo" (mkSize 640 480) false 8 9 true Impl_new
    = (tr, Returned true sample_window)
    ∧ omap mapped_window tr = [34].
Proof.
  apply (init_postcondition sample_world "kodo" (mkSize 640 480) false 8 9
           true Impl_new (mkXVisualInfo 33 24)).
  - discriminate.
  - reflexivity.
Defined.

(** ** The life cycle of the main window *)

(** X23: [show] and [close] only ask the server to map and unmap the main
    window; the controller hears of it when the events come back.  Over a
    whole cycle (show, the MapNotify, close, the UnmapNotify) on a window
    that is not shown, the calls are: map, [onShow], unmap, then the
    closing calls; the object ends closed. *)
Theorem show_close_cycle (W1 W2 W3 W4 : World) (s : Impl) (x y : Window) :
  isMapped s = false →
  run [(W1, CallShow);
       (W2, MainWindowEvent (MapNotify (xWindow s) x));
       (W3, CallClose);
       (W4, MainWindowEvent (UnmapNotify y (xWindow s)))] s
  = ([XMapWindow (xDisplay s) (xWindow s);
      Controller_onShow;
      XUnmapWindow (xDisplay s) (xWindow s)]
     ++ close_calls s,
     Returned () (closed s)).
Proof.
  destruct s as [c0 f0 dpy0 xi xw pp pw gc ia ea mp cur eh th].
  cbn. intros ->.
  unfold run, step, handleMainWindowEvent, close_calls, closed. unfold_M.
  cbn. rewrite Z.eqb_refl. cbn. rewrite Z.eqb_refl.
  destruct f0; reflexivity.
Qed.

Lemma show_close_cycle_witness :
  run [(sample_world, CallShow);
       (sample_world, MainWindowEvent (MapNotify 12 12));
       (sample_world, CallClose);
       (sample_world, MainWindowEvent (UnmapNotify 12 12))] sample_window
  = ([XMapWindow 9 12; Controller_onShow; XUnmapWindow 9 12;
      Controller_onClose; XFreeGC 9 5; XDestroyWindow 9 12; WindowClosedFunc],
     Returned () (closed sample_window)).
Proof.
  apply (show_close_cycle sample_world sample_world sample_world sample_world
           sample_window 12 12).
  reflexivity.
Defined.

(** ** Calling the descriptor handlers *)

(** X24: [callPlugEventHandlers] calls every registered handler once with
    its own descriptor and calls nothing else, whatever the iteration order
    of the map; in particular a handler just registered for a free
    descriptor is called with it. *)
Theorem callPlugEventHandlers_calls_the_registered (W : World) (s : Impl) :
  iterates_entries W →
  (∀ handler fd,
     (handler, fd) ∈ callPlugEventHandlers W s
     ↔ eventHandlers s !! fd = Some handler)
  ∧ NoDup (callPlugEventHandlers W s)
  ∧ (∀ handler fd tr s',
       registerEventHandler handler fd s = (tr, Returned kResultTrue s') →
       (handler, fd) ∈ callPlugEventHandlers W s').
Proof.
  intros Horder.
  assert (Hmem : ∀ s0 handler fd,
            (handler, fd) ∈ callPlugEventHandlers W s0
            ↔ eventHandlers s0 !! fd = Some handler).
  { intros s0 handler fd. unfold callPlugEventHandlers.
    rewrite list_elem_of_fmap. split.
    - intros ([k h] & [= -> ->] & Hin).
      by apply (iterates_entries_lookup W _ _ _ Horder).
    - intros Hk. exists (fd, handler). split; [reflexivity|].
      by apply (iterates_entries_lookup W _ _ _ Horder). }
  split; [apply Hmem|]. split.
  - unfold callPlugEventHandlers. apply NoDup_fmap_2.
    + intros [k1 h1] [k2 h2] [= -> ->]. reflexivity.
    + rewrite (Horder (eventHandlers s)). apply NoDup_map_to_list.
  - intros handler fd tr s' Hreg. apply Hmem.
    destruct s as [c0 f0 dpy0 xi xw pp pw gc ia ea mp cur eh th].
    revert Hreg. unfold registerEventHandler. unfold_M.
    cbn -[emplace lookup insert delete].
    destruct ((handler =? nullptr) || bool_decide (is_Some (eh !! fd)))
      eqn:Hguard; cbn -[emplace lookup insert delete]; [discriminate|].
    intros [= <- <-]. cbn -[emplace lookup insert delete].
    apply orb_false_iff in Hguard as [_ Hfree].
    apply bool_decide_eq_false in Hfree.
    rewrite emplace_fresh.
    + apply lookup_insert_eq.
    + destruct (eh !! fd) eqn:E; [|reflexivity].
      exfalso. apply Hfree. eauto.
Qed.

Lemma callPlugEventHandlers_calls_the_registered_witness :
  (77, 3) ∈ callPlugEventHandlers sample_world
              (set_eventHandlers {[3 := 77]} sample_window).
Proof.
  apply (proj1 (callPlugEventHandlers_calls_the_registered sample_world
                  (set_eventHandlers {[3 := 77]} sample_window)
                  sample_world_iterates) 77 3).
  cbn. apply lookup_singleton_eq.
Defined.
